(** * Finance app: ingestion, normalisation and ledger persistence

    A shallow embedding of the ingestion pipeline of the finance app:
    [normalize_uploaded_data] and [api_upload] of [app.py], and
    [load_korean_excel], [normalize_and_merge], [save_combined_csv] and
    [load_combined_csv] of [src/data_loader.py], with the constants of
    [src/config.py].

    Tables are pandas data frames.  A cell is missing, a text, a number, a
    boolean or a timestamp.  Amounts are rationals: the arithmetic of the
    program (absolute value, subtraction, one multiplication by the fixed
    rate, comparison with zero) is modelled exactly, binary rounding is not.
    Timestamps are seconds since the epoch.  The ledger file is read back
    as [pd.read_csv] reads it, a column at a time; the upload history file
    holds a JSON value. *)

From Stdlib Require Import String Ascii List Bool Arith ZArith QArith Qabs Lia.
From Stdlib Require Import Strings.Byte Sorting.Sorted Sorting.Permutation.
Import ListNotations.

Open Scope string_scope.

(** ** Cells *)

Inductive cell : Type :=
| NA                      (* NaN, NaT or None *)
| Str (s : string)
| Num (q : Q)
| Bool (b : bool)
| Date (t : Z).

Definition isna (c : cell) : bool :=
  match c with NA => true | _ => false end.

Definition notna (c : cell) : bool := negb (isna c).

(** A row of a table, and a column aligned with the rows of the uploaded
    table, given by the value it has on each row. *)
Definition row := list cell.
Definition series := row -> cell.

(** ** Exceptions *)

Inductive exn : Type :=
| KeyError (key : string)
| AttributeError (what : string)
| ValueError (what : string)
| TypeError (what : string)
| FileNotFoundError
| ReadError (what : string).

Inductive result (A : Type) : Type :=
| Ok (a : A)
| Raise (e : exn).

Arguments Ok {A} a.
Arguments Raise {A} e.

Definition bind {A B} (m : result A) (k : A -> result B) : result B :=
  match m with
  | Ok a => k a
  | Raise e => Raise e
  end.

Notation "x <- m ;; k" := (bind m (fun x => k))
  (at level 61, m at next level, right associativity).

Definition is_ok {A} (m : result A) : bool :=
  match m with Ok _ => true | Raise _ => false end.

(** ** Text helpers (Python [str] methods used by the program) *)

(** [pat in s] *)
Fixpoint contains (pat s : string) : bool :=
  prefix pat s ||
  match s with
  | EmptyString => false
  | String _ s' => contains pat s'
  end.

Definition lower_ascii (a : ascii) : ascii :=
  let n := nat_of_ascii a in
  if (65 <=? n)%nat && (n <=? 90)%nat then ascii_of_nat (n + 32) else a.

(** [s.lower()].  Only ASCII letters are folded: none of the patterns the
    program searches for after lowering has a letter that a non-ASCII
    character lowers to. *)
Fixpoint lower (s : string) : string :=
  match s with
  | EmptyString => EmptyString
  | String a s' => String (lower_ascii a) (lower s')
  end.

(** [s.replace(a, '')] for a one-character [a] *)
Fixpoint remove_char (a : ascii) (s : string) : string :=
  match s with
  | EmptyString => EmptyString
  | String b s' =>
      if Ascii.eqb a b then remove_char a s' else String b (remove_char a s')
  end.

(** [s.replace(a, b)] for one-character [a] and [b] *)
Fixpoint replace_char (a b : ascii) (s : string) : string :=
  match s with
  | EmptyString => EmptyString
  | String c s' =>
      String (if Ascii.eqb a c then b else c) (replace_char a b s')
  end.

(** The characters [str.strip()] removes, those for which [str.isspace()]
    holds, each as its UTF-8 bytes: U+0009 to U+000D, U+001C to U+0020,
    U+0085, U+00A0, U+1680, U+2000 to U+200A, U+2028, U+2029, U+202F,
    U+205F and U+3000 *)
Definition WHITESPACE : list (list ascii) :=
  map (map ascii_of_nat)
    [[9]; [10]; [11]; [12]; [13]; [28]; [29]; [30]; [31]; [32];
     [194; 133]; [194; 160]; [225; 154; 128];
     [226; 128; 128]; [226; 128; 129]; [226; 128; 130]; [226; 128; 131];
     [226; 128; 132]; [226; 128; 133]; [226; 128; 134]; [226; 128; 135];
     [226; 128; 136]; [226; 128; 137]; [226; 128; 138];
     [226; 128; 168]; [226; 128; 169]; [226; 128; 175];
     [226; 129; 159]; [227; 128; 128]]%nat.

Fixpoint starts_with (w l : list ascii) : bool :=
  match w, l with
  | [], _ => true
  | a :: w', b :: l' => Ascii.eqb a b && starts_with w' l'
  | _ :: _, [] => false
  end.

(** The text without the characters of [chars] it starts with; [fuel] is
    the length of the text, which bounds the number of characters *)
Fixpoint drop_leading (chars : list (list ascii)) (fuel : nat)
  (l : list ascii) : list ascii :=
  match fuel with
  | O => l
  | S fuel' =>
      match find (fun w => starts_with w l) chars with
      | Some w => drop_leading chars fuel' (skipn (List.length w) l)
      | None => l
      end
  end.

Definition lstrip_bytes (l : list ascii) : list ascii :=
  drop_leading WHITESPACE (List.length l) l.

(** A character ends the text when its bytes, reversed, start the reversed
    text *)
Definition rstrip_bytes (l : list ascii) : list ascii :=
  rev (drop_leading (map (@rev ascii) WHITESPACE) (List.length l) (rev l)).

(** [s.strip()] *)
Definition strip (s : string) : string :=
  string_of_list_ascii (rstrip_bytes (lstrip_bytes (list_ascii_of_string s))).

(** [s.endswith(suffix)] *)
Fixpoint endswith (s suffix : string) : bool :=
  String.eqb s suffix ||
  match s with
  | EmptyString => false
  | String _ s' => endswith s' suffix
  end.

(** ** The pandas primitives that work on text

    Parsing and printing of numbers and dates is the library's; the
    program's logic does not depend on how it is done, so the embedding
    takes it as an interface. *)

Class Pandas : Type := {
  (** [pd.to_numeric] on a text cell; [None] when the text is no number *)
  parse_number : string -> option Q;
  (** [str(x)] of a numeric cell, as [astype(str)] prints it and as
      [to_csv] writes it *)
  format_number : Q -> string;
  (** The number [pd.read_csv] reads a field of a file as; [None] when the
      field is no number *)
  read_number : string -> option Q;
  (** [str(x)] of a timestamp cell *)
  format_timestamp : Z -> string;
  (** [pd.to_datetime(..., format='%d/%m/%Y')] on a text cell *)
  strptime_dmy : string -> option Z;
  (** [pd.to_datetime] without a format on a text cell of a column (the
      format may be inferred from the whole column, the first argument) *)
  parse_date : list cell -> string -> option Z;
  (** [pd.to_datetime] without a format on a numeric cell *)
  date_of_number : Q -> option Z
}.

Section Cells.

Context {P : Pandas}.

Definition to_numeric (c : cell) : cell :=
  match c with
  | NA => NA
  | Str s => match parse_number s with Some q => Num q | None => NA end
  | Num q => Num q
  | Bool b => Num (if b then 1 else 0)
  | Date _ => NA
  end.

(** [astype(str)] / [str(v)] on one cell *)
Definition astype_str (c : cell) : string :=
  match c with
  | NA => "nan"
  | Str s => s
  | Num q => format_number q
  | Bool b => if b then "True" else "False"
  | Date t => format_timestamp t
  end.

Definition of_date (o : option Z) : cell :=
  match o with Some t => Date t | None => NA end.

(** [pd.to_datetime(col, format='%d/%m/%Y', errors='coerce')] on one cell *)
Definition to_datetime_dmy (c : cell) : cell :=
  match c with
  | Str s => of_date (strptime_dmy s)
  | Date t => Date t
  | _ => NA
  end.

(** [pd.to_datetime(col, errors='coerce')] on one cell of column [ctx] *)
Definition to_datetime (ctx : list cell) (c : cell) : cell :=
  match c with
  | Str s => of_date (parse_date ctx s)
  | Num q => of_date (date_of_number q)
  | Date t => Date t
  | _ => NA
  end.

(** [pd.to_datetime(col)]: as above, but a cell that does not parse raises *)
Definition to_datetime_strict (ctx : list cell) (c : cell) : result cell :=
  match c with
  | NA => Ok NA
  | Date t => Ok (Date t)
  | Str s =>
      match parse_date ctx s with
      | Some t => Ok (Date t)
      | None => Raise (ValueError "Unknown datetime string format")
      end
  | Num q =>
      match date_of_number q with
      | Some t => Ok (Date t)
      | None => Raise (ValueError "cannot convert input")
      end
  | Bool _ => Raise (ValueError "not convertible to datetime")
  end.

End Cells.

Definition fillna (v : cell) (c : cell) : cell :=
  if isna c then v else c.

Definition cell_abs (c : cell) : cell :=
  match c with Num q => Num (Qabs q) | _ => NA end.

Definition cell_neg (c : cell) : cell :=
  match c with Num q => Num (- q) | _ => NA end.

Definition cell_sub (a b : cell) : cell :=
  match a, b with Num x, Num y => Num (x - y) | _, _ => NA end.

Definition cell_scale (c : cell) (k : Q) : cell :=
  match c with Num q => Num (q * k) | _ => NA end.

Definition Qpositive (q : Q) : bool := (0 <? Qnum q)%Z.

(** [col > 0]: a missing value compares false *)
Definition gt0 (c : cell) : cell :=
  match c with Num q => Bool (Qpositive q) | _ => Bool false end.

Definition truthy (c : cell) : bool :=
  match c with Bool true => true | _ => false end.

(** ** Configuration ([src/config.py]) *)

(** 1 GBP = 1750 KRW *)
Definition KRW_TO_GBP_RATE : Q := 1 # 1750.

Definition KOREAN_INCOME_TYPE : string := "charge".

(** ** Tables *)

(** An uploaded table: its column names, in order, and its rows.  Column
    names are texts and distinct. *)
Record DataFrame : Type := {
  df_columns : list string;
  df_rows : list row
}.

(** [df.empty] *)
Definition df_empty (df : DataFrame) : bool :=
  match df_columns df, df_rows df with
  | [], _ | _, [] => true
  | _, _ => false
  end.

Fixpoint index_of (name : string) (cols : list string) : option nat :=
  match cols with
  | [] => None
  | c :: cols' =>
      if String.eqb name c then Some O
      else option_map S (index_of name cols')
  end.

(** The canonical transaction record: the ten columns of the ledger. *)
Record record : Type := {
  date : cell;
  time : cell;
  bank : cell;
  type : cell;
  merchant : cell;
  category : cell;
  amount_gbp : cell;
  original_currency : cell;
  original_amount : cell;
  is_income : cell
}.

(** The frame [normalized] that a normalizer fills column by column.  Every
    Series the program assigns to it is aligned with the rows of the
    uploaded table, so a column is kept as the value it has on each of
    those rows, and the index as the list of rows it ranges over.
    [indexed] records whether a Series has been assigned yet: until then
    the frame has no rows, a scalar assigned to it makes an empty column,
    and pandas fills such a column with NaN when the first Series brings
    the index. *)
Record frame : Type := {
  indexed : bool;
  findex : list row;
  fcols : list (string * series)
}.

Definition empty_frame : frame :=
  {| indexed := false; findex := []; fcols := [] |}.

Fixpoint set_col (name : string) (s : series) (cols : list (string * series))
  : list (string * series) :=
  match cols with
  | [] => [(name, s)]
  | (k, v) :: cols' =>
      if String.eqb name k then (k, s) :: cols'
      else (k, v) :: set_col name s cols'
  end.

Fixpoint get_col (name : string) (cols : list (string * series))
  : option series :=
  match cols with
  | [] => None
  | (k, v) :: cols' => if String.eqb name k then Some v else get_col name cols'
  end.

(** [normalized[name]] *)
Definition frame_get (f : frame) (name : string) : result series :=
  match get_col name (fcols f) with
  | Some s => Ok s
  | None => Raise (KeyError name)
  end.

(** [normalized[name] = v] for a scalar [v] *)
Definition set_scalar (name : string) (v : cell) (f : frame) : frame :=
  {| indexed := indexed f;
     findex := findex f;
     fcols := set_col name (fun _ => if indexed f then v else NA) (fcols f) |}.

(** [normalized[name] = s] for a Series [s] made from the frame's own
    columns: it has the frame's index *)
Definition set_derived (name : string) (s : series) (f : frame) : frame :=
  {| indexed := indexed f;
     findex := findex f;
     fcols := set_col name (fun r => if indexed f then s r else NA) (fcols f) |}.

(** The value of column [name] on row [r]; a column the frame does not have
    reads as missing, as [pd.concat] fills it. *)
Definition cell_of (f : frame) (name : string) (r : row) : cell :=
  match get_col name (fcols f) with
  | Some s => s r
  | None => NA
  end.

Definition record_of (f : frame) (r : row) : record :=
  {| date := cell_of f "date" r;
     time := cell_of f "time" r;
     bank := cell_of f "bank" r;
     type := cell_of f "type" r;
     merchant := cell_of f "merchant" r;
     category := cell_of f "category" r;
     amount_gbp := cell_of f "amount_gbp" r;
     original_currency := cell_of f "original_currency" r;
     original_amount := cell_of f "original_amount" r;
     is_income := cell_of f "is_income" r |}.

(** The rows of a frame as records *)
Definition records (f : frame) : list record :=
  map (record_of f) (findex f).

Fixpoint get_cols (names : list string) (f : frame) : result (list series) :=
  match names with
  | [] => Ok []
  | n :: names' =>
      s <- frame_get f n;;
      ss <- get_cols names' f;;
      Ok (s :: ss)
  end.

(** [f.dropna(subset=names, how='all')]: a name that is no column raises;
    the rows in which every named column is missing are dropped *)
Definition dropna_all (names : list string) (f : frame) : result frame :=
  ss <- get_cols names f;;
  Ok {| indexed := indexed f;
        findex := filter (fun r => negb (forallb (fun s : series => isna (s r)) ss))
                         (findex f);
        fcols := fcols f |}.

(** [col.dtype] is numeric: what [select_dtypes(include=['number'])] keeps.
    A column read from a file is numeric when it has rows and each cell is
    a number or missing. *)
Definition numeric_dtype (c : list cell) : bool :=
  match c with
  | [] => false
  | _ => forallb (fun x => match x with Num _ | NA => true | _ => false end) c
  end.

(** ** [normalize_uploaded_data] ([app.py]) *)

Section Normalizers.

Context {P : Pandas}.
Variable df : DataFrame.

(** [name in df.columns] *)
Definition has_col (name : string) : bool :=
  existsb (String.eqb name) (df_columns df).

(** The Series [df[name]], as the value it has on each row *)
Definition col (name : string) : series :=
  fun r =>
    match index_of name (df_columns df) with
    | Some j => nth j r NA
    | None => NA
    end.

(** [df[name]] *)
Definition df_col (name : string) : result series :=
  if has_col name then Ok (col name) else Raise (KeyError name).

(** The cells of [df[name]], top to bottom *)
Definition column (name : string) : list cell :=
  map (col name) (df_rows df).

(** [df.select_dtypes(include=['number']).columns] *)
Definition numeric_cols : list string :=
  filter (fun c => numeric_dtype (column c)) (df_columns df).

(** [normalized[name] = s] for a Series [s] made from [df]: the frame takes
    the index of [df] when it had none *)
Definition set_series (name : string) (s : series) (f : frame) : frame :=
  {| indexed := true;
     findex := df_rows df;
     fcols := set_col name s (fcols f) |}.

(** [normalized[name] = df.get(key, default)] *)
Definition set_get (name key : string) (default : cell) (f : frame) : frame :=
  if has_col key then set_series name (col key) f
  else set_scalar name default f.

(** Lines 457-483: the Monzo format *)
Definition normalize_monzo : result frame :=
  let n := empty_frame in
  let n :=
    if has_col "Date"
    then set_series "date" (fun r => to_datetime_dmy (col "Date" r)) n
    else n in
  let n :=
    if has_col "Time"
    then set_series "time" (col "Time") n
    else set_scalar "time" (Str "") n in
  let n := set_scalar "bank" (Str "Monzo") n in
  let n := set_get "type" "Type" (Str "") n in
  let n := set_get "merchant" "Name" (Str "") n in
  let n := set_get "category" "Category" (Str "Other") n in
  n <- (if has_col "Amount"
        then Ok (set_series "amount_gbp"
                   (fun r => to_numeric (col "Amount" r)) n)
        else if has_col "Money Out"
        then
          let out := fun r => fillna (Num 0) (to_numeric (col "Money Out" r)) in
          money_in <- df_col "Money In";;
          let in_val := fun r => fillna (Num 0) (to_numeric (money_in r)) in
          Ok (set_series "amount_gbp"
                (fun r => cell_sub (in_val r) (cell_abs (out r))) n)
        else Ok n);;
  let n := set_scalar "original_currency" (Str "GBP") n in
  amount <- frame_get n "amount_gbp";;
  let n := set_derived "original_amount" amount n in
  if has_col "Money In"
  then Ok (set_series "is_income"
             (fun r => gt0 (fillna (Num 0) (to_numeric (col "Money In" r)))) n)
  else
    amount <- frame_get n "amount_gbp";;
    Ok (set_derived "is_income" (fun r => gt0 (amount r)) n).

(** [any(... for col in df.columns)] of line 486 *)
Definition korean_marker (c : string) : bool :=
  contains "가맹점" c || contains "종류" c || contains "원화금액" c.

(** [str.contains('충전|charge', case=False)] on a text *)
Definition is_charge (s : string) : bool :=
  contains "충전" s || contains "charge" (lower s).

(** Lines 489-506: the KRW amount, from the column named so, else from the
    last numeric column, else zero *)
Definition krw_amount : series :=
  let krw_col :=
    find (fun c => contains "원화금액" c || contains "KRW" c) (df_columns df) in
  match krw_col with
  | Some c =>
      fun r =>
        to_numeric
          (Str (remove_char " " (remove_char "," (astype_str (col c r)))))
  | None =>
      match rev numeric_cols with
      | c :: _ => fun r => to_numeric (col c r)
      | [] => fun _ => Num 0
      end
  end.

(** Lines 487-554: the Korean TravelWallet format *)
Definition normalize_korean : frame :=
  let n := empty_frame in
  let n := set_series "original_amount" (fun r => cell_abs (krw_amount r)) n in
  let n :=
    set_series "amount_gbp"
      (fun r => cell_scale (cell_abs (krw_amount r)) KRW_TO_GBP_RATE) n in
  let n := set_scalar "original_currency" (Str "KRW") n in
  let n :=
    match find (fun c => contains "날짜" c || contains "date" (lower c))
               (df_columns df) with
    | Some c =>
        (* Parse Korean date format (YYYY.MM.DD): the dot is replaced as a
           character *)
        let date_str := fun r => Str (replace_char "." "-" (astype_str (col c r))) in
        set_series "date"
          (fun r => to_datetime (map date_str (df_rows df)) (date_str r)) n
    | None => set_scalar "date" NA n
    end in
  let n :=
    match find (fun c => contains "시간" c || contains "time" (lower c))
               (df_columns df) with
    | Some c => set_series "time" (fun r => Str (astype_str (col c r))) n
    | None => set_scalar "time" (Str "") n
    end in
  let n := set_scalar "bank" (Str "TravelWallet (Korea)") n in
  let n :=
    match find (fun c => contains "종류" c) (df_columns df) with
    | Some c =>
        let n := set_series "type" (fun r => Str (astype_str (col c r))) n in
        set_series "is_income"
          (fun r => Bool (is_charge (astype_str (col c r)))) n
    | None =>
        let n := set_scalar "type" (Str "") n in
        set_scalar "is_income" (Bool false) n
    end in
  let n :=
    match find (fun c => contains "가맹점" c) (df_columns df) with
    | Some c =>
        let n := set_series "merchant" (fun r => fillna (Str "Unknown") (col c r)) n in
        set_series "category" (fun r => fillna (Str "Other") (col c r)) n
    | None =>
        let n := set_scalar "merchant" (Str "Unknown") n in
        set_scalar "category" (Str "Other") n
    end in
  (* Make spending amounts negative for consistency *)
  let income := cell_of n "is_income" in
  let amount := cell_of n "amount_gbp" in
  set_derived "amount_gbp"
    (fun r => if truthy (income r) then amount r
              else cell_neg (cell_abs (amount r))) n.

(** Lines 557-595: the generic format *)
Definition normalize_generic : result frame :=
  let n := empty_frame in
  let date_cols := filter (fun c => contains "date" (lower c)) (df_columns df) in
  let n :=
    match date_cols with
    | c :: _ =>
        set_series "date" (fun r => to_datetime (column c) (col c r)) n
    | [] => set_scalar "date" NA n
    end in
  let n := set_scalar "time" (Str "") n in
  let n := set_scalar "bank" (Str "Uploaded") n in
  let n := set_scalar "type" (Str "") n in
  let amount_cols :=
    filter (fun c => contains "amount" (lower c) || contains "value" (lower c))
           (df_columns df) in
  let n :=
    match amount_cols with
    | c :: _ => set_series "amount_gbp" (fun r => to_numeric (col c r)) n
    | [] =>
        match numeric_cols with
        | c :: _ => set_series "amount_gbp" (col c) n
        | [] => set_scalar "amount_gbp" (Num 0) n
        end
    end in
  let n := set_scalar "original_currency" (Str "GBP") n in
  amount <- frame_get n "amount_gbp";;
  let n := set_derived "original_amount" amount n in
  let cat_cols :=
    filter (fun c => contains "category" (lower c) || contains "type" (lower c))
           (df_columns df) in
  let n :=
    match cat_cols with
    | c :: _ => set_series "category" (col c) n
    | [] => set_scalar "category" (Str "Other") n
    end in
  let name_cols :=
    filter (fun c => contains "name" (lower c) || contains "merchant" (lower c)
                     || contains "description" (lower c))
           (df_columns df) in
  let n :=
    match name_cols with
    | c :: _ => set_series "merchant" (col c) n
    | [] => set_scalar "merchant" (Str "") n
    end in
  amount <- frame_get n "amount_gbp";;
  Ok (set_derived "is_income" (fun r => gt0 (amount r)) n).

(** Which of the three formats line 456 and line 486 select *)
Inductive format : Type := Monzo | Korean | Generic.

Definition detect_format : format :=
  if has_col "Transaction ID" || has_col "Date" then Monzo
  else if existsb korean_marker (df_columns df) then Korean
  else Generic.

(** Lines 453-595: the frame before the clean-up *)
Definition build_normalized : result frame :=
  match detect_format with
  | Monzo => normalize_monzo
  | Korean => Ok normalize_korean
  | Generic => normalize_generic
  end.

(** Lines 597-600 *)
Definition normalize_uploaded_data : result frame :=
  normalized <- build_normalized;;
  dropna_all ["date"; "amount_gbp"] normalized.

(** The rows of the frame the call returns *)
Definition normalized_records : result (list record) :=
  normalized <- normalize_uploaded_data;;
  Ok (records normalized).

(** The rows of the frame before the clean-up *)
Definition built_records : result (list record) :=
  normalized <- build_normalized;;
  Ok (records normalized).

End Normalizers.

(** ** A reference instance of the text primitives

    Plain decimal numbers (optional sign, digits, optional fraction),
    dates as [dd/mm/yyyy] for the fixed format and [yyyy-mm-dd] where the
    format is inferred.  It is what the examples below are evaluated with. *)

Module Reference.

Local Open Scope Z_scope.

Fixpoint split_on (a : ascii) (s : string) : list string :=
  match s with
  | EmptyString => [EmptyString]
  | String b s' =>
      match split_on a s' with
      | [] => [String b EmptyString]
      | w :: ws => if Ascii.eqb a b then EmptyString :: w :: ws
                   else String b w :: ws
      end
  end.

Definition is_digit (a : ascii) : bool :=
  let n := nat_of_ascii a in (48 <=? n)%nat && (n <=? 57)%nat.

Fixpoint all_digits (s : string) : bool :=
  match s with
  | EmptyString => true
  | String a s' => is_digit a && all_digits s'
  end.

Fixpoint digits_value (s : string) (acc : Z) : Z :=
  match s with
  | EmptyString => acc
  | String a s' => digits_value s' (10 * acc + Z.of_nat (nat_of_ascii a - 48)%nat)
  end.

(** An unsigned run of at least one digit *)
Definition natural (s : string) : option Z :=
  match s with
  | EmptyString => None
  | _ => if all_digits s then Some (digits_value s 0) else None
  end.

Definition unsigned_decimal (s : string) : option Q :=
  match split_on "." s with
  | [i] => option_map inject_Z (natural i)
  | [i; f] =>
      match natural i, natural f with
      | Some a, Some b =>
          let scale := Z.pow 10 (Z.of_nat (String.length f)) in
          Some (Qred (Qmake (a * scale + b) (Z.to_pos scale)))
      | _, _ => None
      end
  | _ => None
  end.

Definition decimal (s : string) : option Q :=
  match s with
  | String "-" s' => option_map Qopp (unsigned_decimal s')
  | _ => unsigned_decimal s
  end.

Fixpoint digits_of (fuel : nat) (n : Z) (acc : string) : string :=
  match fuel with
  | O => acc
  | S fuel' =>
      let d := String (ascii_of_nat (48 + Z.to_nat (n mod 10))%nat) acc in
      if (n <? 10)%Z then d else digits_of fuel' (n / 10) d
  end.

Definition show_nat (n : Z) : string := digits_of 40 n EmptyString.

Definition show_int (n : Z) : string :=
  if (n <? 0)%Z then String "-" (show_nat (- n)) else show_nat n.

Definition pad2 (n : Z) : string :=
  if (n <? 10)%Z then String "0" (show_nat n) else show_nat n.

(** Days since 1970-01-01 of a civil date *)
Definition days_from_civil (y m d : Z) : Z :=
  let y' := if (m <=? 2)%Z then y - 1 else y in
  let era := y' / 400 in
  let yoe := y' - era * 400 in
  let mp := (m + 9) mod 12 in
  let doy := (153 * mp + 2) / 5 + d - 1 in
  let doe := yoe * 365 + yoe / 4 - yoe / 100 + doy in
  (era * 146097 + doe - 719468)%Z.

Definition civil_from_days (z : Z) : Z * Z * Z :=
  let z := z + 719468 in
  let era := z / 146097 in
  let doe := z - era * 146097 in
  let yoe := (doe - doe / 1460 + doe / 36524 - doe / 146096) / 365 in
  let doy := doe - (365 * yoe + yoe / 4 - yoe / 100) in
  let mp := (5 * doy + 2) / 153 in
  let d := doy - (153 * mp + 2) / 5 + 1 in
  let m := if (mp <? 10)%Z then mp + 3 else mp - 9 in
  let y := yoe + era * 400 in
  ((if (m <=? 2)%Z then y + 1 else y), m, d)%Z.

Definition valid_civil (y m d : Z) : bool :=
  (1 <=? m)%Z && (m <=? 12)%Z && (1 <=? d)%Z &&
  let '(y', m', d') := civil_from_days (days_from_civil y m d) in
  (y' =? y)%Z && (m' =? m)%Z && (d' =? d)%Z.

Definition timestamp_of (y m d : option Z) : option Z :=
  match y, m, d with
  | Some y, Some m, Some d =>
      if valid_civil y m d then Some (86400 * days_from_civil y m d)%Z
      else None
  | _, _, _ => None
  end.

Definition dmy (s : string) : option Z :=
  match split_on "/" s with
  | [d; m; y] => timestamp_of (natural y) (natural m) (natural d)
  | _ => None
  end.

Definition ymd (s : string) : option Z :=
  match split_on "-" s with
  | [y; m; d] => timestamp_of (natural y) (natural m) (natural d)
  | _ => None
  end.

Definition show_date (t : Z) : string :=
  let '(y, m, d) := civil_from_days (t / 86400) in
  show_nat y ++ "-" ++ pad2 m ++ "-" ++ pad2 d.

Fixpoint fraction_digits (fuel : nat) (r d : Z) : string :=
  match fuel with
  | O => EmptyString
  | S fuel' =>
      if (r =? 0)%Z then EmptyString
      else String (ascii_of_nat (48 + Z.to_nat (10 * r / d))%nat)
                  (fraction_digits fuel' (10 * r mod d) d)
  end.

(** Integers print without a fraction, other numbers with up to 17 digits
    after the point *)
Definition show_number (q : Q) : string :=
  let n := Z.abs (Qnum q) in
  let d := Zpos (Qden q) in
  let sign := if (Qnum q <? 0)%Z then "-" else "" in
  if (n mod d =? 0)%Z then sign ++ show_nat (n / d)
  else sign ++ show_nat (n / d) ++ "." ++ fraction_digits 17 (n mod d) d.

#[export] Instance pandas : Pandas := {
  parse_number := decimal;
  format_number := show_number;
  read_number := decimal;
  format_timestamp := show_date;
  strptime_dmy := dmy;
  parse_date := fun _ => ymd;
  date_of_number := fun q => Some (Qnum q / Zpos (Qden q) / 1000000000)%Z
}.

End Reference.

(** ** The ledger ([src/data_loader.py]) *)

Definition cell_eqb (a b : cell) : bool :=
  match a, b with
  | NA, NA => true
  | Str x, Str y => String.eqb x y
  | Num x, Num y => Qeq_bool x y
  | Bool x, Bool y => Bool.eqb x y
  | Date x, Date y => Z.eqb x y
  | _, _ => false
  end.

(** Two rows are duplicates when all their fields are equal *)
Definition record_eqb (a b : record) : bool :=
  cell_eqb (date a) (date b) && cell_eqb (time a) (time b) &&
  cell_eqb (bank a) (bank b) && cell_eqb (type a) (type b) &&
  cell_eqb (merchant a) (merchant b) && cell_eqb (category a) (category b) &&
  cell_eqb (amount_gbp a) (amount_gbp b) &&
  cell_eqb (original_currency a) (original_currency b) &&
  cell_eqb (original_amount a) (original_amount b) &&
  cell_eqb (is_income a) (is_income b).

(** [df.drop_duplicates()]: the first of each group of equal rows is kept,
    in place *)
Fixpoint drop_duplicates (l : list record) : list record :=
  match l with
  | [] => []
  | r :: l' => r :: filter (fun x => negb (record_eqb r x)) (drop_duplicates l')
  end.

Definition date_key (r : record) : option Z :=
  match date r with Date t => Some t | _ => None end.

(** The order [sort_values('date')] sorts by: ascending, missing dates last *)
Definition date_le (a b : record) : bool :=
  match date_key a, date_key b with
  | Some x, Some y => (x <=? y)%Z
  | _, None => true
  | None, Some _ => false
  end.

Fixpoint insert_by_date (r : record) (l : list record) : list record :=
  match l with
  | [] => [r]
  | x :: l' => if date_le r x then r :: l else x :: insert_by_date r l'
  end.

(** [df.sort_values('date')], as an insertion sort.  The default sort kind
    of pandas does not promise an order among rows of equal date, and no
    statement below depends on the order this sort gives them. *)
Definition sort_values (l : list record) : list record :=
  fold_right insert_by_date [] l.

(** [normalize_and_merge]: the frames of the two loaders, as their rows *)
Definition normalize_and_merge (monzo_df korean_df : list record)
  : list record :=
  let dfs_to_merge :=
    ((match monzo_df with [] => [] | _ => [monzo_df] end) ++
     (match korean_df with [] => [] | _ => [korean_df] end))%list in
  match dfs_to_merge with
  | [] => []
  | _ => sort_values (concat dfs_to_merge)
  end.

Fixpoint map_result {A B} (f : A -> result B) (l : list A) : result (list B) :=
  match l with
  | [] => Ok []
  | a :: l' =>
      b <- f a;;
      bs <- map_result f l';;
      Ok (b :: bs)
  end.

Definition with_date (r : record) (d : cell) : record :=
  {| date := d;
     time := time r;
     bank := bank r;
     type := type r;
     merchant := merchant r;
     category := category r;
     amount_gbp := amount_gbp r;
     original_currency := original_currency r;
     original_amount := original_amount r;
     is_income := is_income r |}.

(** The day of a timestamp, at midnight *)
Definition date_only (t : Z) : Z := (86400 * (t / 86400))%Z.

(** [col.dt.strftime('%Y-%m-%d')] on one cell.  The text [yyyy-mm-dd] is
    kept as the midnight timestamp of that day, which is what reading it
    back gives. *)
Definition strftime_ymd (c : cell) : result cell :=
  match c with
  | Date t => Ok (Date (date_only t))
  | NA => Ok NA
  | _ => Raise (AttributeError "Can only use .dt accessor with datetimelike values")
  end.

(** The combined CSV file: one row per record, in the order written *)
Definition csv_file := list record.

(** [save_combined_csv]: the file it writes *)
Definition save_combined_csv (df : list record) : result csv_file :=
  map_result (fun r => d <- strftime_ymd (date r);; Ok (with_date r d)) df.

(** The texts [pd.read_csv] reads as a missing value: its default
    [na_values] *)
Definition NA_VALUES : list string :=
  [""; "#N/A"; "#N/A N/A"; "#NA"; "-1.#IND"; "-1.#QNAN"; "-NaN"; "-nan";
   "1.#IND"; "1.#QNAN"; "<NA>"; "N/A"; "NA"; "NULL"; "NaN"; "None"; "n/a";
   "nan"; "null"].

Definition is_na_text (s : string) : bool := existsb (String.eqb s) NA_VALUES.

(** The texts [pd.read_csv] reads as booleans *)
Definition is_true_text (s : string) : bool :=
  existsb (String.eqb s) ["True"; "TRUE"; "true"].

Definition is_false_text (s : string) : bool :=
  existsb (String.eqb s) ["False"; "FALSE"; "false"].

(** What [pd.read_csv] makes of a column: numbers when every field that is
    not missing is a number, else booleans when every such field is one,
    else the texts of the fields *)
Inductive dtype : Type := Float64 | Boolean | Object.

Section Ledger.

Context {P : Pandas}.

(** The field [to_csv] writes for a cell: nothing for a missing value *)
Definition to_csv_text (c : cell) : string :=
  match c with
  | NA => ""
  | Str s => s
  | Num q => format_number q
  | Bool b => if b then "True" else "False"
  | Date t => format_timestamp t
  end.

Definition is_number_text (s : string) : bool :=
  match read_number s with Some _ => true | None => false end.

Definition column_dtype (fields : list string) : dtype :=
  let present := filter (fun s => negb (is_na_text s)) fields in
  if forallb is_number_text present then Float64
  else if forallb (fun s => is_true_text s || is_false_text s) present
       then Boolean
       else Object.

(** One field of a column read as [d] *)
Definition read_field (d : dtype) (s : string) : cell :=
  if is_na_text s then NA
  else
    match d with
    | Float64 =>
        match read_number s with Some q => Num q | None => Str s end
    | Boolean => Bool (is_true_text s)
    | Object => Str s
    end.

(** A cell of column [col] of the file, read: the column is read as a
    whole, its fields all have the type the column is found to have *)
Definition read_cell (col : list cell) (c : cell) : cell :=
  read_field (column_dtype (map to_csv_text col)) (to_csv_text c).

(** The column as it is read *)
Definition read_csv_column (col : list cell) : list cell :=
  map (read_cell col) col.

Definition is_date (c : cell) : bool :=
  match c with Date _ => true | _ => false end.

(** A cell of the date column of the file.  [save_combined_csv] writes the
    day of a timestamp as yyyy-mm-dd; the file keeps that field as the
    timestamp of the day (see [strftime_ymd]), which is what
    [pd.to_datetime] makes of it.  Such a field is a text that is no
    number, so a column holding one is read as texts. *)
Definition read_date_cell (col : list cell) (c : cell) : cell :=
  if existsb is_date col
  then if is_date c then c else read_field Object (to_csv_text c)
  else read_cell col c.

(** [pd.read_csv] on the file, row by row *)
Definition read_csv_row (rows : list record) (r : record) : record :=
  {| date := read_date_cell (map date rows) (date r);
     time := read_cell (map time rows) (time r);
     bank := read_cell (map bank rows) (bank r);
     type := read_cell (map type rows) (type r);
     merchant := read_cell (map merchant rows) (merchant r);
     category := read_cell (map category rows) (category r);
     amount_gbp := read_cell (map amount_gbp rows) (amount_gbp r);
     original_currency :=
       read_cell (map original_currency rows) (original_currency r);
     original_amount :=
       read_cell (map original_amount rows) (original_amount r);
     is_income := read_cell (map is_income rows) (is_income r) |}.

Definition read_csv_rows (rows : list record) : list record :=
  map (read_csv_row rows) rows.

(** [load_combined_csv]: [None] is an absent file *)
Definition load_combined_csv (file : option csv_file) : result (list record) :=
  match file with
  | None => Raise FileNotFoundError
  | Some rows =>
      let df := read_csv_rows rows in
      map_result
        (fun r => d <- to_datetime_strict (map date df) (date r);;
                  Ok (with_date r d)) df
  end.

(** ** [load_korean_excel] ([src/data_loader.py]) *)

(** [col.str.lower().str.strip() == KOREAN_INCOME_TYPE] on one cell *)
Definition equals_income_type (c : cell) : cell :=
  match c with
  | Str s => Bool (String.eqb (strip (lower s)) KOREAN_INCOME_TYPE)
  | _ => Bool false
  end.

(** Lines 105-163, on the table read from the file *)
Definition load_korean_excel_table (df : DataFrame) : result (list record) :=
  if df_empty df then Ok []
  else
    match rev (numeric_cols df) with
    | [] => Ok []
    | amount_col :: _ =>
        let merchant_col :=
          find (fun c => contains "가맹점" c || contains "merchant" (lower c))
               (df_columns df) in
        let payment_type_col :=
          find (fun c => contains "종류" c || contains "type" (lower c))
               (df_columns df) in
        let date_col :=
          find (fun c => contains "날짜" c || contains "date" (lower c))
               (df_columns df) in
        let opt (c : option string) (default : cell) : series :=
          match c with
          | Some c => col df c
          | None => fun _ => default
          end in
        dates <-
          match date_col with
          | Some c =>
              map_result (to_datetime_strict (column df c)) (column df c)
          | None => Ok (map (fun _ => NA) (df_rows df))
          end;;
        is_income_of <-
          match payment_type_col with
          | Some c =>
              if numeric_dtype (column df c)
              then Raise (AttributeError "Can only use .str accessor with string values")
              else Ok (fun (r : row) (_ : cell) => equals_income_type (col df c r))
          | None => Ok (fun (_ : row) (amount : cell) => gt0 amount)
          end;;
        Ok (map
              (fun '(r, d) =>
                 let original := col df amount_col r in
                 let amount := cell_scale original KRW_TO_GBP_RATE in
                 {| date := d;
                    time := Str "";
                    bank := Str "TravelWallet (Korea)";
                    type := opt payment_type_col (Str "") r;
                    merchant := opt merchant_col (Str "") r;
                    category := opt merchant_col (Str "") r;
                    amount_gbp := amount;
                    original_currency := Str "KRW";
                    original_amount := original;
                    is_income := is_income_of r amount |})
              (combine (df_rows df) dates))
    end.

(** [load_korean_excel]: [None] is an absent file, [Raise] a file that
    could not be read; both give an empty frame *)
Definition load_korean_excel (file : option (result DataFrame))
  : result (list record) :=
  match file with
  | None => Ok []
  | Some (Raise _) => Ok []
  | Some (Ok df) => load_korean_excel_table df
  end.

End Ledger.

(** ** The upload route ([api_upload] of [app.py]) *)

Inductive engine : Type := Openpyxl | Xlrd.

(** The [header] argument of [pd.read_excel]: no header row, or the row
    holding the column names (row 0 when the argument is left out) *)
Inductive header_arg : Type :=
| NoHeader
| HeaderRow (i : nat).

(** The file-format libraries the route calls *)
Class Readers : Type := {
  (** [pd.read_csv(io.StringIO(content.decode('utf-8')))] *)
  read_csv : list byte -> result DataFrame;
  (** [pd.read_excel(buffer, engine, header, nrows)] *)
  read_excel : engine -> list byte -> header_arg -> option nat -> result DataFrame;
  (** [import msoffcrypto] succeeds *)
  has_msoffcrypto : bool;
  (** [msoffcrypto.OfficeFile(buffer)]: the container, opened *)
  office_file : list byte -> result (list byte);
  (** [load_key(password='')] and [decrypt] on the opened container *)
  decrypt_empty_password : list byte -> result (list byte)
}.

Record history_entry : Type := {
  h_filename : string;
  h_bank : cell;
  h_transactions : nat;
  h_currency : cell;
  h_uploaded_at : string;
  h_source : string
}.

(** A value as [json.load] returns it.  The members of a dictionary have
    distinct keys and keep their order. *)
#[warnings="-register-all"] Inductive json : Type :=
| JNull
| JBool (b : bool)
| JNumber (q : Q)
| JString (s : string)
| JList (items : list json)
| JDict (members : list (string * json)).

(** The upload history file.  [Files l] is the file as the app writes it,
    [{'files': [...]}] with one entry of six keys per uploaded file; an
    absent file and a file that is not JSON are read as [{'files': []}]
    by [get_upload_history], that is [Files []].  [Foreign j] is a file
    that holds valid JSON of any other shape, which [get_upload_history]
    returns as it is. *)
Inductive history_content : Type :=
| Files (files : list history_entry)
| Foreign (j : json).

(** What the route reads and writes: the combined CSV file, the upload
    history file and the cached frame *)
Record state : Type := {
  ledger_file : option csv_file;
  history_json : history_content;
  df_cache : option (list record)
}.

Record upload : Type := {
  filename : string;
  content : list byte
}.

Inductive message : Type :=
| NoFileUploaded
| NoFileSelected
| PasswordProtected
| MsoffcryptoMissing
| FailedToReadExcel (e : exn)
| UnsupportedFormat
| NoValidData.

Inductive response : Type :=
| Success (added total : nat) (bank_type : cell)   (* 200 *)
| BadRequest (m : message)                          (* 400 *)
| ServerError (e : exn).                            (* 500 *)

(** [add_to_upload_history]: the entry of the same file name is updated,
    else a new entry is appended *)
Fixpoint add_to_upload_history (name : string) (bank_type : cell)
  (transactions : nat) (currency : cell) (now : string)
  (files : list history_entry) : list history_entry :=
  match files with
  | [] =>
      [{| h_filename := name; h_bank := bank_type;
          h_transactions := transactions; h_currency := currency;
          h_uploaded_at := now; h_source := "upload" |}]
  | e :: files' =>
      if String.eqb (h_filename e) name
      then {| h_filename := h_filename e; h_bank := h_bank e;
              h_transactions := transactions; h_currency := h_currency e;
              h_uploaded_at := now; h_source := h_source e |} :: files'
      else e :: add_to_upload_history name bank_type transactions currency now files'
  end.

(** *** The same function on a history file of another shape *)

Definition dict_get (key : string) (members : list (string * json))
  : option json :=
  option_map snd (find (fun kv => String.eqb (fst kv) key) members).

Fixpoint dict_set (key : string) (v : json) (members : list (string * json))
  : list (string * json) :=
  match members with
  | [] => [(key, v)]
  | (k, x) :: members' =>
      if String.eqb k key then (k, v) :: members'
      else (k, x) :: dict_set key v members'
  end.

(** [v[key]] for a text [key] *)
Definition getitem (v : json) (key : string) : result json :=
  match v with
  | JDict members =>
      match dict_get key members with
      | Some x => Ok x
      | None => Raise (KeyError key)
      end
  | JList _ => Raise (TypeError "list indices must be integers or slices, not str")
  | JString _ => Raise (TypeError "string indices must be integers, not 'str'")
  | JNull | JBool _ | JNumber _ => Raise (TypeError "object is not subscriptable")
  end.

(** [v[key] = x], reached only for a dictionary [v] *)
Definition setitem (v : json) (key : string) (x : json) : json :=
  match v with
  | JDict members => JDict (dict_set key x members)
  | _ => v
  end.

(** [v == name] for a text [name] *)
Definition equals_text (v : json) (name : string) : bool :=
  match v with
  | JString s => String.eqb s name
  | _ => false
  end.

Definition json_of_nat (n : nat) : json := JNumber (inject_Z (Z.of_nat n)).

(** The bank and the currency of an upload, which every branch of
    [normalize_uploaded_data] sets to a text *)
Definition json_of_cell (c : cell) : json :=
  match c with
  | Str s => JString s
  | Num q => JNumber q
  | Bool b => JBool b
  | NA | Date _ => JNull
  end.

(** Lines 91-96: the loop over the entries.  [Some] is the list with the
    first entry of that file name updated; the look-up of 'filename'
    raises on an entry met before it that is no dictionary or has no such
    key. *)
Fixpoint update_entry (name : string) (transactions : nat) (now : string)
  (entries : list json) : result (option (list json)) :=
  match entries with
  | [] => Ok None
  | file_entry :: entries' =>
      v <- getitem file_entry "filename";;
      if equals_text v name
      then
        let file_entry :=
          setitem file_entry "transactions" (json_of_nat transactions) in
        let file_entry := setitem file_entry "uploaded_at" (JString now) in
        Ok (Some (file_entry :: entries'))
      else
        found <- update_entry name transactions now entries';;
        Ok (option_map (cons file_entry) found)
  end.

(** Lines 88-107 on the JSON value [history].  What [history['files']]
    holds is iterated: a list gives its items; a dictionary gives its keys
    and a text its characters, on the first of which the look-up of
    'filename' raises; with nothing to iterate, [append] is looked up on
    it. *)
Definition add_to_foreign_history (name : string) (bank_type : cell)
  (transactions : nat) (currency : cell) (now : string) (history : json)
  : result json :=
  files <- getitem history "files";;
  match files with
  | JList entries =>
      found <- update_entry name transactions now entries;;
      match found with
      | Some entries' => Ok (setitem history "files" (JList entries'))
      | None =>
          Ok (setitem history "files"
                (JList
                   (entries ++
                    [JDict [("filename", JString name);
                            ("bank", json_of_cell bank_type);
                            ("transactions", json_of_nat transactions);
                            ("currency", json_of_cell currency);
                            ("uploaded_at", JString now);
                            ("source", JString "upload")]])))
      end
  | JDict (_ :: _) | JString (String _ _) =>
      Raise (TypeError "string indices must be integers, not 'str'")
  | JDict [] | JString EmptyString =>
      Raise (AttributeError "object has no attribute 'append'")
  | JNull | JBool _ | JNumber _ => Raise (TypeError "object is not iterable")
  end.

(** The JSON value of a history file the app wrote *)
Definition json_of_entry (e : history_entry) : json :=
  JDict [("filename", JString (h_filename e));
         ("bank", json_of_cell (h_bank e));
         ("transactions", json_of_nat (h_transactions e));
         ("currency", json_of_cell (h_currency e));
         ("uploaded_at", JString (h_uploaded_at e));
         ("source", JString (h_source e))].

Definition json_of_files (files : list history_entry) : json :=
  JDict [("files", JList (map json_of_entry files))].

(** [add_to_upload_history] on the file as it is found *)
Definition update_upload_history (name : string) (bank_type : cell)
  (transactions : nat) (currency : cell) (now : string)
  (history : history_content) : result history_content :=
  match history with
  | Files files =>
      Ok (Files (add_to_upload_history name bank_type transactions currency
                   now files))
  | Foreign j =>
      j' <- add_to_foreign_history name bank_type transactions currency now j;;
      Ok (Foreign j')
  end.





(** CDFV2 files start with D0 CF 11 E0 *)
Definition is_encrypted (content : list byte) : bool :=
  match content with
  | xd0 :: xcf :: x11 :: xe0 :: _ => true
  | _ => false
  end.

Section Upload.

Context {P : Pandas} {R : Readers}.

(** Lines 391-392: some cell of the row, as text, has one of the markers *)
Definition row_has_marker (r : row) : bool :=
  existsb (fun v => contains "날짜" v || contains "종류" v || contains "가맹점" v)
          (map astype_str (filter notna r)).

Fixpoint first_marker_row (i : nat) (rows : list row) : option nat :=
  match rows with
  | [] => None
  | r :: rows' =>
      if row_has_marker r then Some i else first_marker_row (S i) rows'
  end.

(** Lines 389-394: the loop over [range(min(15, len(test_df)))] *)
Definition detect_header_row (test_df : DataFrame) : option nat :=
  first_marker_row 0
    (firstn (Nat.min 15 (length (df_rows test_df))) (df_rows test_df)).

(** Lines 396-400: how the sheet is then read *)
Inductive read_plan : Type :=
| KoreanRead (header_row : nat)   (* header=header_row *)
| DefaultRead.                    (* no header argument *)

Definition plan_of (header_row : option nat) : read_plan :=
  match header_row with
  | Some i => KoreanRead i
  | None => DefaultRead
  end.

Definition header_of (p : read_plan) : header_arg :=
  match p with
  | KoreanRead i => HeaderRow i
  | DefaultRead => HeaderRow 0
  end.

(** Lines 383-407: an unencrypted sheet *)
Definition read_plain_excel (content : list byte) : result DataFrame + message :=
  let attempt :=
    test_df <- read_excel Openpyxl content NoHeader (Some 15%nat);;
    read_excel Openpyxl content
      (header_of (plan_of (detect_header_row test_df))) None in
  match attempt with
  | Ok new_df => inl (Ok new_df)
  | Raise e1 =>
      match read_excel Xlrd content (HeaderRow 0) None with
      | Ok new_df => inl (Ok new_df)
      | Raise _ => inr (FailedToReadExcel e1)
      end
  end.

(** Lines 360-380: an encrypted sheet *)
Definition read_encrypted_excel (content : list byte)
  : result DataFrame + message :=
  if has_msoffcrypto then
    match office_file content with
    | Raise e => inl (Raise e)
    | Ok ms_file =>
        (* Try empty password first *)
        match (decrypted <- decrypt_empty_password ms_file;;
               read_excel Openpyxl decrypted (HeaderRow 0) None) with
        | Ok new_df => inl (Ok new_df)
        | Raise _ => inr PasswordProtected
        end
    end
  else inr MsoffcryptoMissing.

(** Lines 339-412: the table read from the file and normalized; [inr] is a
    400 answer given at once, [Raise] an exception caught at line 447 *)
Definition read_upload (file : upload) : result frame + message :=
  let name := lower (filename file) in
  if endswith name ".csv" then
    inl (new_df <- read_csv (content file);;
         normalize_uploaded_data new_df)
  else if endswith name ".xlsx" || endswith name ".xls" then
    match (if is_encrypted (content file)
           then read_encrypted_excel (content file)
           else read_plain_excel (content file)) with
    | inl new_df => inl (new_df <- new_df;; normalize_uploaded_data new_df)
    | inr m => inr m
    end
  else inr UnsupportedFormat.

(** Lines 417-423: the existing ledger with the new rows appended *)
Definition merge_ledger (file : option csv_file) (new_df : list record)
  : list record :=
  match load_combined_csv file with
  | Ok existing_df => drop_duplicates (existing_df ++ new_df)%list
  | Raise _ => new_df
  end.

(** [reload_data]: the cache is dropped and the file loaded again; only an
    absent file is caught *)
Definition reload_data (st : state) : result state :=
  match load_combined_csv (ledger_file st) with
  | Ok df =>
      Ok {| ledger_file := ledger_file st;
            history_json := history_json st;
            df_cache := Some df |}
  | Raise FileNotFoundError =>
      Ok {| ledger_file := ledger_file st;
            history_json := history_json st;
            df_cache := Some [] |}
  | Raise e => Raise e
  end.

(** [api_upload]: the answer and the files afterwards.  [request] is
    [request.files.get('file')], [now] the time of the call. *)
Definition api_upload (now : string) (request : option upload) (st : state)
  : response * state :=
  match request with
  | None => (BadRequest NoFileUploaded, st)
  | Some file =>
      if String.eqb (filename file) "" then (BadRequest NoFileSelected, st)
      else
        match read_upload file with
        | inr m => (BadRequest m, st)
        | inl (Raise e) => (ServerError e, st)
        | inl (Ok normalized) =>
            let new_df := records normalized in
            match new_df with
            | [] => (BadRequest NoValidData, st)
            | first :: _ =>
                let combined := merge_ledger (ledger_file st) new_df in
                let bank_type := bank first in
                let currency := original_currency first in
                (* Save *)
                match save_combined_csv combined with
                | Raise e => (ServerError e, st)
                | Ok written =>
                    let st :=
                      {| ledger_file := Some written;
                         history_json := history_json st;
                         df_cache := df_cache st |} in
                    match reload_data st with
                    | Raise e => (ServerError e, st)
                    | Ok st =>
                        (* Update upload history *)
                        match update_upload_history (filename file) bank_type
                                (length new_df) currency now (history_json st)
                        with
                        | Raise e => (ServerError e, st)
                        | Ok history =>
                            (Success (length new_df) (length combined)
                               bank_type,
                             {| ledger_file := ledger_file st;
                                history_json := history;
                                df_cache := df_cache st |})
                        end
                    end
                end
            end
        end
  end.

End Upload.

(** ** Properties stated about the pipeline *)


(** The Monzo branch finds the columns it builds the amount from *)
Definition monzo_amount_columns (df : DataFrame) : bool :=
  has_col df "Amount" || (has_col df "Money Out" && has_col df "Money In").

(** Both the date and the amount of a record are missing *)
Definition both_missing (r : record) : bool :=
  isna (date r) && isna (amount_gbp r).

(** Sorted ascending by date, missing dates last *)
Definition date_sorted (l : list record) : Prop :=
  Sorted (fun a b => date_le a b = true) l.

(** No row of the list is a duplicate of a row before it *)
Inductive duplicate_free : list record -> Prop :=
| duplicate_free_nil : duplicate_free []
| duplicate_free_cons r l :
    (forall x, In x l -> record_eqb r x = false) ->
    duplicate_free l ->
    duplicate_free (r :: l).

(** [l'] is [l] with some rows left out, the others in their order *)
Inductive sublist : list record -> list record -> Prop :=
| sublist_nil : sublist [] []
| sublist_keep r l' l : sublist l' l -> sublist (r :: l') (r :: l)
| sublist_skip r l' l : sublist l' l -> sublist l' (r :: l).

(** A row as [save_combined_csv] writes it: the date cut to its day *)
Definition written_row (r : record) : record :=
  with_date r (match date r with Date t => Date (date_only t) | _ => NA end).

(** The date column holds timestamps (or nothing) *)
Definition datetimelike (r : record) : Prop :=
  match date r with Date _ | NA => True | _ => False end.

Section RoundTrip.

Context {P : Pandas}.

(** [load_combined_csv] of what [save_combined_csv] wrote *)
Definition roundtrip (df : list record) : result (list record) :=
  written <- save_combined_csv df;;
  load_combined_csv (Some written).

(** The rows of [df] as they are read from the file they were written to *)
Definition reloaded (df : list record) : list record :=
  read_csv_rows (map written_row df).

End RoundTrip.

(** ** Example tables *)

Module Examples.


(** A Monzo export without an "Amount" column *)
Definition monzo_money_out : DataFrame :=
  {| df_columns := ["Date"; "Name"; "Money Out"; "Money In"];
     df_rows := [[Str "15/01/2024"; Str "Shop"; Str "12.50"; Str "0"]] |}.

Definition monzo_no_date : DataFrame :=
  {| df_columns := ["Transaction ID"];
     df_rows := [[Str "tx_0000A1"]] |}.

Definition monzo_no_date_amount : DataFrame :=
  {| df_columns := ["Transaction ID"; "Amount"];
     df_rows := [[Str "tx_0000A1"; Num 3]] |}.

(** A TravelWallet sheet as the upload route reads it *)
Definition travelwallet_topup : DataFrame :=
  {| df_columns := ["날짜"; "종류"; "가맹점"; "원화금액"];
     df_rows := [[Str "2024.01.15"; Str "충전"; Str "Bank"; Str "50,000"]] |}.


(** A TravelWallet sheet with one payment *)
Definition travelwallet_payment : DataFrame :=
  {| df_columns := ["날짜"; "종류(Payment type)";
                    "가맹점 이름(Name of the merchant)"; "금액"];
     df_rows := [[Date 1705363200; Str "결제"; Str "Cafe"; Num 12000]] |}.

(** A TravelWallet sheet with a payment and a row of empty cells *)
Definition travelwallet_blank_row : DataFrame :=
  {| df_columns := ["날짜"; "종류(Payment type)";
                    "가맹점 이름(Name of the merchant)"; "금액"];
     df_rows := [[Date 1705363200; Str "결제"; Str "Cafe"; Num 12000];
                 [NA; Str "결제"; NA; NA]] |}.

(** A TravelWallet sheet with a date that is no date *)
Definition travelwallet_bad_date : DataFrame :=
  {| df_columns := ["날짜"; "종류(Payment type)";
                    "가맹점 이름(Name of the merchant)"; "금액"];
     df_rows := [[Str "soon"; Str "결제"; Str "Cafe"; Num 12000]] |}.

(** A sheet with dirty rows: no date, no amount, neither *)
Definition dirty : DataFrame :=
  {| df_columns := ["date"; "amount"];
     df_rows := [[Str "2024-01-15"; Str "n/a"];
                 [Str "soon"; Str "4.20"];
                 [Str "soon"; Str "n/a"]] |}.

Definition january : record :=
  {| date := Date 1704412800; time := Str "09:30:00"; bank := Str "Monzo";
     type := Str "Card payment"; merchant := Str "Bakery";
     category := Str "Eating out"; amount_gbp := Num (-3 # 1);
     original_currency := Str "GBP"; original_amount := Num (-3 # 1);
     is_income := Bool false |}.

Definition february : record :=
  {| date := Date 1706745600; time := Str "18:05:00"; bank := Str "Monzo";
     type := Str "Card payment"; merchant := Str "Grocer";
     category := Str "Groceries"; amount_gbp := Num (-20 # 1);
     original_currency := Str "GBP"; original_amount := Num (-20 # 1);
     is_income := Bool false |}.

(** A Monzo export holding the January payment *)
Definition january_export : DataFrame :=
  {| df_columns := ["Date"; "Time"; "Type"; "Name"; "Category"; "Amount"];
     df_rows := [[Str "05/01/2024"; Str "09:30:00"; Str "Card payment";
                  Str "Bakery"; Str "Eating out"; Num (-3 # 1)]] |}.

(** Readers that find the January export in any non-empty CSV upload and
    no workbook anywhere *)
#[export] Instance readers : Readers := {
  read_csv := fun content =>
    match content with
    | [] => Raise (ReadError "No columns to parse from file")
    | _ => Ok january_export
    end;
  read_excel := fun _ _ _ _ => Raise (ReadError "File is not a zip file");
  has_msoffcrypto := false;
  office_file := fun _ => Raise (ReadError "not an OLE file");
  decrypt_empty_password := fun _ => Raise (ReadError "no key")
}.

(** The files before the upload: the ledger holds the February payment *)
Definition ledger_of_february : state :=
  {| ledger_file := Some [february];
     history_json := Files [];
     df_cache := None |}.

(** The same files, with a history file that holds the JSON text [[]] *)
Definition history_of_another_shape : state :=
  {| ledger_file := Some [february];
     history_json := Foreign (JList []);
     df_cache := None |}.

Definition upload_csv : upload :=
  {| filename := "january.csv"; content := [x44; x61; x74; x65] |}.

Definition upload_txt : upload :=
  {| filename := "notes.txt"; content := [x68; x69] |}.

End Examples.

(** * The rest of the loaders, the cache and the overall summary *)

(** ** [load_monzo_csv] ([src/data_loader.py]) *)

(** Monzo CSV column mappings ([src/config.py]) *)
Definition MONZO_COLUMNS : list (string * string) :=
  [("date", "Date"); ("time", "Time"); ("type", "Type"); ("merchant", "Name");
   ("category", "Category"); ("amount", "Amount"); ("currency", "Currency");
   ("money_out", "Money Out"); ("money_in", "Money In")].

(** [MONZO_COLUMNS[key]], for the keys the dictionary has *)
Definition monzo_column (key : string) : string :=
  match find (fun kv => String.eqb key (fst kv)) MONZO_COLUMNS with
  | Some kv => snd kv
  | None => ""
  end.

(** Python's [float(s)] on a text *)
Class Python : Type := {
  float_of_text : string -> option Q
}.

Section MonzoLoader.

Context {P : Pandas} {Y : Python}.

(** [pd.to_datetime(col, format='%d/%m/%Y')] on one cell: a cell that does
    not match the format raises *)
Definition to_datetime_dmy_strict (c : cell) : result cell :=
  match c with
  | NA => Ok NA
  | Date t => Ok (Date t)
  | Str s =>
      match strptime_dmy s with
      | Some t => Ok (Date t)
      | None => Raise (ValueError "time data does not match format '%d/%m/%Y'")
      end
  | _ => Raise (ValueError "time data does not match format '%d/%m/%Y'")
  end.

(** [col.astype(float)] on one cell *)
Definition astype_float (c : cell) : result cell :=
  match c with
  | NA => Ok NA
  | Num q => Ok (Num q)
  | Bool b => Ok (Num (if b then 1 else 0))
  | Str s =>
      match float_of_text s with
      | Some q => Ok (Num q)
      | None => Raise (ValueError "could not convert string to float")
      end
  | Date _ => Raise (ValueError "float() argument must be a string or a real number")
  end.

(** Lines 39-63, on the table read from the file: every column is looked
    up and converted as a whole, in the order of the source *)
Definition load_monzo_csv_table (df : DataFrame) : result (list record) :=
  let rows := df_rows df in
  raw_date <- df_col df (monzo_column "date");;
  dates <- map_result to_datetime_dmy_strict (map raw_date rows);;
  time_col <- df_col df (monzo_column "time");;
  type_col <- df_col df (monzo_column "type");;
  merchant_col <- df_col df (monzo_column "merchant");;
  category_col <- df_col df (monzo_column "category");;
  raw_amount <- df_col df (monzo_column "amount");;
  amounts <- map_result astype_float (map raw_amount rows);;
  raw_money_in <- df_col df (monzo_column "money_in");;
  money_in <-
    map_result astype_float
      (map (fun r => fillna (Num 0) (raw_money_in r)) rows);;
  Ok (map
        (fun '(r, d, a, m) =>
           {| date := d;
              time := time_col r;
              bank := Str "Monzo";
              type := type_col r;
              merchant := merchant_col r;
              category := category_col r;
              amount_gbp := a;
              original_currency := Str "GBP";
              original_amount := a;
              is_income := gt0 m |})
        (combine (combine (combine rows dates) amounts) money_in)).

(** [load_monzo_csv]: [Raise] is a file [pd.read_csv] could not read; the
    exception is not caught *)
Definition load_monzo_csv (file : result DataFrame) : result (list record) :=
  df <- file;;
  load_monzo_csv_table df.

(** ** [main] of [main_v1.py]

    The two loads, the merge and the save; the file written.  When both
    frames are empty the merge returns a frame without columns, and
    [save_combined_csv] raises on its missing date column. *)
Definition main_v1 (monzo_file : result DataFrame)
  (korean_file : option (result DataFrame)) : result csv_file :=
  monzo_df <- load_monzo_csv monzo_file;;
  korean_df <- load_korean_excel korean_file;;
  match normalize_and_merge monzo_df korean_df with
  | [] => Raise (KeyError "date")
  | combined_df => save_combined_csv combined_df
  end.

End MonzoLoader.

(** ** The cached frame ([get_data] and [reload_data] of [app.py]) *)

(** The module-level cache: [_df_cache] and [_df_cache_time] *)
Record cache : Type := {
  _df_cache : option (list record);
  _df_cache_time : option Z
}.

(** The combined CSV file with its modification time; [None] is no file *)
Definition stamped_file := option (csv_file * Z).

Section Cache.

Context {P : Pandas}.

(** [get_data]: the frame returned and the cache afterwards.  The
    modification time of an absent file reads as 0; only an absent file is
    caught on loading. *)
Definition get_data (file : stamped_file) (c : cache)
  : result (list record * cache) :=
  let file_mtime := match file with Some (_, m) => m | None => 0%Z end in
  let stale :=
    match _df_cache c, _df_cache_time c with
    | None, _ => true
    | Some _, None => true
    | Some _, Some t => negb (Z.eqb t file_mtime)
    end in
  if stale then
    match load_combined_csv (option_map fst file) with
    | Ok df =>
        Ok (df, {| _df_cache := Some df; _df_cache_time := Some file_mtime |})
    | Raise FileNotFoundError =>
        Ok ([], {| _df_cache := Some []; _df_cache_time := _df_cache_time c |})
    | Raise e => Raise e
    end
  else
    match _df_cache c with
    | Some df => Ok (df, c)
    | None => Ok ([], c)
    end.

(** [reload_data] with the modification time: the cache is emptied first *)
Definition reload_cache (file : stamped_file) : result (list record * cache) :=
  get_data file {| _df_cache := None; _df_cache_time := None |}.

End Cache.

(** ** The upload history route ([api_upload_history] of [app.py]) *)

Record history_totals : Type := {
  files : list history_entry;
  total_files : nat;
  total_transactions : nat
}.

Definition api_upload_history (history : list history_entry) : history_totals :=
  {| files := history;
     total_files := length history;
     total_transactions :=
       fold_right (fun f acc => (h_transactions f + acc)%nat) 0%nat history |}.

(** The count stored for a file name, 0 when the history has no such entry *)
Fixpoint transactions_of (name : string) (history : list history_entry) : nat :=
  match history with
  | [] => 0
  | e :: history' =>
      if String.eqb (h_filename e) name then h_transactions e
      else transactions_of name history'
  end.

(** ** The overall summary ([get_income_vs_spending] of [src/analyzer.py]) *)

Record overall : Type := {
  total_spending : Q;
  total_income : Q;
  net_cash_flow : Q;
  spending_count : nat;
  income_count : nat;
  average_spending : Q;
  average_income : Q
}.

(** [df['is_income']] as a mask: the column has to hold booleans *)
Fixpoint income_mask (df : list record) : result (list bool) :=
  match df with
  | [] => Ok []
  | r :: df' =>
      match is_income r with
      | Bool b => m <- income_mask df';; Ok (b :: m)
      | _ => Raise (TypeError "bad operand type for unary ~")
      end
  end.

(** [col.sum()]: missing values are skipped *)
Fixpoint amount_sum (cells : list cell) : result Q :=
  match cells with
  | [] => Ok 0
  | c :: cells' =>
      s <- amount_sum cells';;
      match c with
      | NA => Ok s
      | Num q => Ok (q + s)
      | Bool b => Ok ((if b then 1 else 0) + s)
      | _ => Raise (TypeError "unsupported operand type(s) for +")
      end
  end.

(** The rows of [df] the mask selects *)
Fixpoint select (mask : list bool) (df : list record) : list record :=
  match mask, df with
  | b :: mask', r :: df' => if b then r :: select mask' df' else select mask' df'
  | _, _ => []
  end.

(** [get_income_vs_spending].  The frame without rows is the one [get_data]
    returns when there is no ledger: it has no columns, and the first
    lookup of a column raises.  [api_summary] does not call the function
    on it.  The sums and the averages are rationals, as amounts are
    throughout: the rounding of the floating-point sum and quotient is not
    modelled. *)
Definition get_income_vs_spending (df : list record) : result overall :=
  match df with
  | [] => Raise (KeyError "is_income")
  | _ =>
      mask <- income_mask df;;
      let spending_df := select (map negb mask) df in
      let income_df := select mask df in
      spending <- amount_sum (map amount_gbp spending_df);;
      income <- amount_sum (map amount_gbp income_df);;
      Ok {| total_spending := Qabs spending;
            total_income := income;
            net_cash_flow := income + spending;
            spending_count := length spending_df;
            income_count := length income_df;
            average_spending :=
              Qabs spending
              / inject_Z (Z.of_nat (Nat.max 1 (length spending_df)));
            average_income :=
              income
              / inject_Z (Z.of_nat (Nat.max 1 (length income_df))) |}
  end.

(** A spending row has an amount that is negative, zero or missing *)
Definition spending_not_positive (r : record) : Prop :=
  match is_income r with
  | Bool false =>
      match amount_gbp r with
      | Num q => q <= 0
      | NA => True
      | _ => False
      end
  | _ => True
  end.

(** The amount of a record converts its original amount at the fixed rate *)
Definition converted_at_rate (r : record) : Prop :=
  match original_amount r, amount_gbp r with
  | Num o, Num q => 0 <= o /\ Qabs q == o * KRW_TO_GBP_RATE
  | NA, NA => True
  | _, _ => False
  end.

(** The amount cell is a number or empty *)
Definition numeric_cell (c : cell) : Prop :=
  match c with Num _ | NA => True | _ => False end.

Module MoreExamples.

#[export] Instance python : Python := {
  float_of_text := Reference.decimal
}.

(** A Monzo export as the bank writes it *)
Definition monzo_export : DataFrame :=
  {| df_columns := ["Transaction ID"; "Date"; "Time"; "Type"; "Name";
                    "Category"; "Amount"; "Currency"; "Money Out"; "Money In"];
     df_rows :=
       [[Str "tx_0000A1"; Str "05/01/2024"; Str "09:30:00"; Str "Card payment";
         Str "Bakery"; Str "Eating out"; Num (-3 # 1); Str "GBP";
         Num (-3 # 1); NA];
        [Str "tx_0000A2"; Str "03/01/2024"; Str "08:00:00"; Str "Faster payment";
         Str "Employer"; Str "Income"; Num 1500; Str "GBP"; NA; Num 1500]] |}.

Definition salary : record :=
  {| date := Date 1704240000; time := Str "08:00:00"; bank := Str "Monzo";
     type := Str "Faster payment"; merchant := Str "Employer";
     category := Str "Income"; amount_gbp := Num 1500;
     original_currency := Str "GBP"; original_amount := Num 1500;
     is_income := Bool true |}.


Definition one_upload : list history_entry :=
  [{| h_filename := "january.csv"; h_bank := Str "Monzo";
      h_transactions := 1; h_currency := Str "GBP";
      h_uploaded_at := "2024-03-01T12:00:00"; h_source := "upload" |}].

End MoreExamples.

(** * Proofs *)

(** ** The clean-up step *)

Lemma filter_map_comm {A B} (g : A -> B) (p : B -> bool) (l : list A) :
  filter p (map g l) = map g (filter (fun a => p (g a)) l).
Proof.
  induction l as [| a l IH]; simpl; [reflexivity|].
  destruct (p (g a)); simpl; now rewrite IH.
Qed.

Lemma dropna_records (f out : frame) :
  dropna_all ["date"; "amount_gbp"] f = Ok out ->
  fcols out = fcols f /\
  findex out = filter (fun r => negb (both_missing (record_of f r))) (findex f) /\
  records out = filter (fun rec => negb (both_missing rec)) (records f).
Proof.
  unfold dropna_all, get_cols, frame_get, records, both_missing.
  destruct (get_col "date" (fcols f)) as [d|] eqn:Hd; simpl; [|discriminate].
  destruct (get_col "amount_gbp" (fcols f)) as [a|] eqn:Ha; simpl; [|discriminate].
  intros H. injection H as <-. simpl.
  assert (E : forall r : row,
             negb (isna (d r) && (isna (a r) && true)) =
             negb (isna (cell_of f "date" r) && isna (cell_of f "amount_gbp" r))).
  { intros r. unfold cell_of. rewrite Hd, Ha. now rewrite andb_true_r. }
  split; [reflexivity|]. split.
  - apply filter_ext, E.
  - rewrite filter_map_comm. unfold record_of at 1. simpl.
    f_equal. apply filter_ext, E.
Qed.

Lemma record_of_ext (f g : frame) (r : row) :
  fcols f = fcols g -> record_of f r = record_of g r.
Proof. intros E. unfold record_of, cell_of. now rewrite E. Qed.

(** ** The three formats, case by case *)

Ltac monzo_cases df :=
  unfold normalize_monzo, set_get, df_col;
  destruct (has_col df "Date"), (has_col df "Time"), (has_col df "Type"),
    (has_col df "Name"), (has_col df "Category"), (has_col df "Amount"),
    (has_col df "Money Out"), (has_col df "Money In"); cbn.

Ltac generic_cases df :=
  unfold normalize_generic;
  destruct (filter (fun c => contains "date" (lower c)) (df_columns df));
  destruct (filter (fun c => contains "amount" (lower c) || contains "value" (lower c))
                   (df_columns df));
  destruct (numeric_cols df);
  destruct (filter (fun c => contains "category" (lower c) || contains "type" (lower c))
                   (df_columns df));
  destruct (filter (fun c => contains "name" (lower c) || contains "merchant" (lower c)
                             || contains "description" (lower c)) (df_columns df));
  cbn.

Ltac korean_cases df :=
  unfold normalize_korean;
  destruct (find (fun c => contains "날짜" c || contains "date" (lower c)) (df_columns df));
  destruct (find (fun c => contains "시간" c || contains "time" (lower c)) (df_columns df));
  destruct (find (fun c => contains "종류" c) (df_columns df));
  destruct (find (fun c => contains "가맹점" c) (df_columns df));
  cbn.

Section NormalizerFacts.

Context {P : Pandas}.

Lemma generic_ok df :
  is_ok (n <- normalize_generic df;; dropna_all ["date"; "amount_gbp"] n) = true.
Proof. generic_cases df; reflexivity. Qed.

Lemma korean_ok df :
  is_ok (dropna_all ["date"; "amount_gbp"] (normalize_korean df)) = true.
Proof. korean_cases df; reflexivity. Qed.

(** The Monzo frame of a table with a "Date" column: it is built when the
    amount columns are there; its rows are those of the table; without a
    "Money In" column [is_income] takes the sign of the amount, with one
    the sign of that column *)
Lemma monzo_with_date df :
  has_col df "Date" = true ->
  match normalize_monzo df with
  | Ok n =>
      monzo_amount_columns df = true /\
      is_ok (dropna_all ["date"; "amount_gbp"] n) = true /\
      findex n = df_rows df /\
      (forall r, cell_of n "bank" r = Str "Monzo") /\
      (forall r,
         cell_of n "is_income" r =
           if has_col df "Money In"
           then gt0 (fillna (Num 0) (to_numeric (col df "Money In" r)))
           else gt0 (cell_of n "amount_gbp" r)) /\
      (forall r,
         cell_of n "amount_gbp" r =
           if has_col df "Amount" then to_numeric (col df "Amount" r)
           else cell_sub
                  (fillna (Num 0) (to_numeric (col df "Money In" r)))
                  (cell_abs (fillna (Num 0) (to_numeric (col df "Money Out" r)))))
  | Raise _ => monzo_amount_columns df = false
  end.
Proof.
  intros HD. unfold monzo_amount_columns, normalize_monzo, set_get, df_col.
  rewrite HD.
  destruct (has_col df "Time"), (has_col df "Type"),
    (has_col df "Name"), (has_col df "Category"), (has_col df "Amount"),
    (has_col df "Money Out"), (has_col df "Money In"); cbn;
    repeat split; reflexivity.
Qed.

(** The Monzo frame of a table without a "Date" column has no date column *)
Lemma monzo_without_date df :
  has_col df "Date" = false ->
  match normalize_monzo df with
  | Ok n =>
      get_col "date" (fcols n) = None /\ monzo_amount_columns df = true
  | Raise e =>
      monzo_amount_columns df = false /\
      e = KeyError (if has_col df "Money Out" then "Money In" else "amount_gbp")
  end.
Proof.
  intros HD. unfold monzo_amount_columns, normalize_monzo, set_get, df_col.
  rewrite HD.
  destruct (has_col df "Time"), (has_col df "Type"),
    (has_col df "Name"), (has_col df "Category"), (has_col df "Amount"),
    (has_col df "Money Out"), (has_col df "Money In"); cbn;
    split; reflexivity.
Qed.

Lemma monzo_ok df :
  is_ok (n <- normalize_monzo df;; dropna_all ["date"; "amount_gbp"] n) =
  has_col df "Date" && monzo_amount_columns df.
Proof.
  destruct (has_col df "Date") eqn:HD.
  - pose proof (monzo_with_date df HD) as H.
    destruct (normalize_monzo df) as [n|e]; simpl.
    + destruct H as (-> & -> & _). reflexivity.
    + now rewrite H.
  - pose proof (monzo_without_date df HD) as H.
    destruct (normalize_monzo df) as [n|e]; simpl; [|reflexivity].
    destruct H as [Hnone _].
    unfold dropna_all, get_cols, frame_get. now rewrite Hnone.
Qed.

Lemma monzo_frame df n :
  has_col df "Date" = true -> normalize_monzo df = Ok n ->
  findex n = df_rows df /\
  (forall r, cell_of n "bank" r = Str "Monzo") /\
  (forall r,
     cell_of n "is_income" r =
       if has_col df "Money In"
       then gt0 (fillna (Num 0) (to_numeric (col df "Money In" r)))
       else gt0 (cell_of n "amount_gbp" r)) /\
  (forall r,
     cell_of n "amount_gbp" r =
       if has_col df "Amount" then to_numeric (col df "Amount" r)
       else cell_sub (fillna (Num 0) (to_numeric (col df "Money In" r)))
                     (cell_abs (fillna (Num 0) (to_numeric (col df "Money Out" r))))).
Proof.
  intros HD Hn. pose proof (monzo_with_date df HD) as H. rewrite Hn in H.
  tauto.
Qed.

(** Whether the call returns is decided by the column names *)
Lemma normalize_ok df :
  is_ok (normalize_uploaded_data df) =
  match detect_format df with
  | Monzo => has_col df "Date" && monzo_amount_columns df
  | _ => true
  end.
Proof.
  unfold normalize_uploaded_data, build_normalized.
  destruct (detect_format df).
  - apply monzo_ok.
  - apply korean_ok.
  - apply generic_ok.
Qed.


Lemma korean_index df : findex (normalize_korean df) = df_rows df.
Proof. korean_cases df; reflexivity. Qed.

(** The Korean branch of the upload route: the amount is the converted
    magnitude for a top-up and its negation otherwise *)
Lemma korean_income df r :
  let charge :=
    match find (fun c => contains "종류" c) (df_columns df) with
    | Some c => is_charge (astype_str (col df c r))
    | None => false
    end in
  let converted := cell_scale (cell_abs (krw_amount df r)) KRW_TO_GBP_RATE in
  cell_of (normalize_korean df) "is_income" r = Bool charge /\
  cell_of (normalize_korean df) "amount_gbp" r =
    (if charge then converted else cell_neg (cell_abs converted)) /\
  cell_of (normalize_korean df) "original_amount" r = cell_abs (krw_amount df r) /\
  cell_of (normalize_korean df) "original_currency" r = Str "KRW" /\
  cell_of (normalize_korean df) "type" r =
    match find (fun c => contains "종류" c) (df_columns df) with
    | Some c => Str (astype_str (col df c r))
    | None => Str ""
    end.
Proof.
  korean_cases df; repeat split; try reflexivity.
  all: match goal with |- context [is_charge ?x] => destruct (is_charge x) end;
    reflexivity.
Qed.

End NormalizerFacts.




(** ** The sign of the amount and [is_income] *)




(** ** Rows dropped by the clean-up *)

Lemma detect_format_columns {P : Pandas} (df df' : DataFrame) :
  df_columns df' = df_columns df ->
  detect_format df' = detect_format df /\
  forall name, has_col df' name = has_col df name.
Proof.
  intros E. unfold detect_format, has_col. now rewrite E.
Qed.

(** C9, as stated for every normalizer, fails for [load_korean_excel]: it
    has no clean-up step.  A row of empty cells is returned with its date and
    its amount both missing, where [normalize_uploaded_data] drops it; and a
    date that does not parse raises. *)
Lemma C9_counterexample :
  (exists payment blank,
     @load_korean_excel Reference.pandas
       (Some (Ok Examples.travelwallet_blank_row)) = Ok [payment; blank] /\
     both_missing blank = true) /\
  (exists payment,
     @normalized_records Reference.pandas Examples.travelwallet_blank_row
       = Ok [payment]) /\
  (exists e,
     @load_korean_excel Reference.pandas
       (Some (Ok Examples.travelwallet_bad_date)) = Raise e).
Proof.
  split; [|split].
  - eexists. eexists. split; [vm_compute; reflexivity|reflexivity].
  - eexists. vm_compute; reflexivity.
  - eexists. vm_compute; reflexivity.
Qed.

(** C9 (amended): [normalize_uploaded_data], in each of its three formats,
    drops exactly the rows whose date and amount are both missing: the rows
    it returns are the rows built before the clean-up with those filtered
    out, so a row missing only one of the two is kept.  Cells that fail to
    parse become missing values and never an exception: whether the call
    returns is decided by the column names alone. *)
Theorem C9_drop_rule {P : Pandas} (df : DataFrame) (recs : list record) :
  normalized_records df = Ok recs ->
  (exists before,
     built_records df = Ok before /\
     recs = filter (fun rec => negb (both_missing rec)) before /\
     forall rec, In rec before ->
       (In rec recs <-> both_missing rec = false)) /\
  (forall df', df_columns df' = df_columns df ->
     is_ok (normalized_records df') = true).
Proof.
  intros H. split.
  - revert H. unfold normalized_records, built_records, normalize_uploaded_data.
    destruct (build_normalized df) as [pre|e]; simpl; [|discriminate].
    destruct (dropna_all ["date"; "amount_gbp"] pre) as [out|e] eqn:Hd;
      simpl; [|discriminate].
    intros E. injection E as <-.
    destruct (dropna_records pre out Hd) as (_ & _ & Hr).
    exists (records pre). split; [reflexivity|]. split; [exact Hr|].
    intros rec Hin. rewrite Hr, filter_In, negb_true_iff. tauto.
  - intros df' Hcols.
    assert (Hok : is_ok (normalize_uploaded_data df) = true).
    { revert H. unfold normalized_records.
      destruct (normalize_uploaded_data df); [reflexivity|discriminate]. }
    assert (Hok' : is_ok (normalize_uploaded_data df') = true).
    { rewrite normalize_ok in *. unfold monzo_amount_columns in *.
      destruct (detect_format_columns df df' Hcols) as [-> Hhas].
      now rewrite !Hhas. }
    unfold normalized_records.
    destruct (normalize_uploaded_data df'); [reflexivity|discriminate].
Qed.

(** On the sheet with dirty rows: the row without an amount and the row
    without a date are kept, the row with neither is dropped. *)
Lemma C9_drop_rule_witness :
  exists recs before,
    @normalized_records Reference.pandas Examples.dirty = Ok recs /\
    @built_records Reference.pandas Examples.dirty = Ok before /\
    length before = 3%nat /\ length recs = 2%nat /\
    recs = filter (fun rec => negb (both_missing rec)) before.
Proof.
  eexists. eexists.
  assert (E : @normalized_records Reference.pandas Examples.dirty = Ok _)
    by (vm_compute; reflexivity).
  split; [exact E|].
  destruct (@C9_drop_rule Reference.pandas _ _ E) as [(before & Hb & Hf & _) _].
  assert (E' : @built_records Reference.pandas Examples.dirty = Ok _)
    by (vm_compute; reflexivity).
  rewrite E' in Hb. injection Hb as <-.
  split; [exact E'|].
  split; [reflexivity|]. split; [reflexivity|]. exact Hf.
Defined.

(** ** A table without a "Date" column *)

(** C10, as stated, fails on the place of the exception: for a table whose
    only column is "Transaction ID" the frame is never handed to the
    clean-up; line 478 raises while reading the amount column back. *)
Lemma C10_counterexample :
  has_col Examples.monzo_no_date "Transaction ID" = true /\
  has_col Examples.monzo_no_date "Date" = false /\
  @build_normalized Reference.pandas Examples.monzo_no_date
    = Raise (KeyError "amount_gbp") /\
  ~ (exists n e,
       @build_normalized Reference.pandas Examples.monzo_no_date = Ok n /\
       dropna_all ["date"; "amount_gbp"] n = Raise e).
Proof.
  split; [reflexivity|]. split; [reflexivity|].
  assert (E : @build_normalized Reference.pandas Examples.monzo_no_date
              = Raise (KeyError "amount_gbp")) by reflexivity.
  split; [exact E|].
  intros (n & e & Hn & _). rewrite E in Hn. discriminate.
Qed.

(** C10 (amended): for every table with a "Transaction ID" column and no
    "Date" column the Monzo branch is selected, no date column is assigned,
    and the call raises instead of returning.  When the table has an
    "Amount" column, or both "Money Out" and "Money In", the frame is built
    and it is the clean-up that raises, on the missing date column;
    otherwise building the frame raises first, on the missing amount. *)
Theorem C10_missing_date {P : Pandas} (df : DataFrame) :
  has_col df "Transaction ID" = true ->
  has_col df "Date" = false ->
  detect_format df = Monzo /\
  (forall n, build_normalized df = Ok n -> get_col "date" (fcols n) = None) /\
  (exists e, normalize_uploaded_data df = Raise e) /\
  (if has_col df "Amount" || (has_col df "Money Out" && has_col df "Money In")
   then (exists n, build_normalized df = Ok n) /\
        normalize_uploaded_data df = Raise (KeyError "date")
   else build_normalized df =
          Raise (KeyError (if has_col df "Money Out" then "Money In"
                           else "amount_gbp"))).
Proof.
  intros HT HD.
  assert (HF : detect_format df = Monzo).
  { unfold detect_format. now rewrite HT. }
  pose proof (monzo_without_date df HD) as HM.
  unfold monzo_amount_columns in HM.
  unfold normalize_uploaded_data, build_normalized. rewrite HF.
  destruct (normalize_monzo df) as [n|e].
  - destruct HM as [Hnone Hcols]. rewrite Hcols.
    assert (E : dropna_all ["date"; "amount_gbp"] n = Raise (KeyError "date")).
    { unfold dropna_all, get_cols, frame_get. now rewrite Hnone. }
    repeat split.
    + intros n' H. now injection H as <-.
    + exists (KeyError "date"). exact E.
    + now exists n.
    + exact E.
  - destruct HM as [Hcols ->]. rewrite Hcols.
    repeat split.
    + intros n' H. discriminate.
    + eexists. reflexivity.
Qed.

(** With an "Amount" column the frame is built and the clean-up raises *)
Lemma C10_missing_date_witness :
  has_col Examples.monzo_no_date_amount "Transaction ID" = true /\
  has_col Examples.monzo_no_date_amount "Date" = false /\
  @normalize_uploaded_data Reference.pandas Examples.monzo_no_date_amount
    = Raise (KeyError "date").
Proof.
  split; [reflexivity|]. split; [reflexivity|].
  exact (proj2 (proj2 (proj2 (proj2
    (@C10_missing_date Reference.pandas Examples.monzo_no_date_amount
       eq_refl eq_refl))))).
Defined.

(** ** The two scenarios *)

Lemma kept_row {P : Pandas} (df : DataFrame) (pre : frame) (r : row) :
  build_normalized df = Ok pre ->
  is_ok (dropna_all ["date"; "amount_gbp"] pre) = true ->
  In r (findex pre) ->
  both_missing (record_of pre r) = false ->
  exists recs,
    normalized_records df = Ok recs /\ In (record_of pre r) recs.
Proof.
  intros Hb Hok Hr Hm.
  unfold normalized_records, normalize_uploaded_data. rewrite Hb. simpl.
  destruct (dropna_all ["date"; "amount_gbp"] pre) as [out|e] eqn:Hd;
    [|discriminate].
  destruct (dropna_records pre out Hd) as (_ & _ & Hrec).
  simpl. eexists. split; [reflexivity|].
  rewrite Hrec. apply filter_In. split.
  - unfold records. now apply in_map.
  - now rewrite Hm.
Qed.

Lemma Qpositive_zero (q : Q) : q == 0 -> Qpositive q = false.
Proof.
  unfold Qeq, Qpositive. simpl. intros H. apply Z.ltb_ge. lia.
Qed.

(** C5: a row of a Korean TravelWallet table whose type reads "충전" and
    whose KRW amount is 50000 is normalized to a record marked as income,
    with original amount 50000 KRW and the positive amount 50000/1750,
    which lies between 28.57 and 28.58. *)
Theorem C5_topup_scenario {P : Pandas} (df : DataFrame) (tc : string) (r : row)
  (krw : Q) :
  detect_format df = Korean ->
  find (fun c => contains "종류" c) (df_columns df) = Some tc ->
  In r (df_rows df) ->
  astype_str (col df tc r) = "충전" ->
  krw_amount df r = Num krw ->
  krw == 50000 ->
  exists recs rec orig q,
    normalized_records df = Ok recs /\ In rec recs /\
    type rec = Str "충전" /\
    original_currency rec = Str "KRW" /\
    original_amount rec = Num orig /\ orig == 50000 /\
    is_income rec = Bool true /\
    amount_gbp rec = Num q /\
    q == 50000 * KRW_TO_GBP_RATE /\ 0 < q /\ 28.57 <= q /\ q <= 28.58.
Proof.
  intros HF Hfind Hr Htype Hkrw Hval.
  assert (Hb : build_normalized df = Ok (normalize_korean df)).
  { unfold build_normalized. now rewrite HF. }
  destruct (korean_income df r) as (Hinc & Hamt & Horig & Hcur & Hty).
  rewrite Hfind, Htype in *. rewrite Hkrw in *.
  change (is_charge "충전") with true in *.
  cbn [cell_abs cell_scale] in *.
  destruct (kept_row df _ r Hb) as (recs & Hrecs & Hin).
  - apply korean_ok.
  - now rewrite korean_index.
  - unfold both_missing.
    change (amount_gbp (record_of (normalize_korean df) r))
      with (cell_of (normalize_korean df) "amount_gbp" r).
    rewrite Hamt. simpl. apply andb_false_r.
  - exists recs, (record_of (normalize_korean df) r), (Qabs krw),
      (Qabs krw * KRW_TO_GBP_RATE).
    split; [exact Hrecs|]. split; [exact Hin|]. split; [exact Hty|].
    split; [exact Hcur|]. split; [exact Horig|].
    split; [now rewrite Hval|]. split; [exact Hinc|].
    split; [exact Hamt|].
    rewrite Hval.
    split; [reflexivity|]. repeat split; vm_compute; congruence.
Qed.

Lemma C5_topup_scenario_witness :
  exists recs rec orig q,
    @normalized_records Reference.pandas Examples.travelwallet_topup = Ok recs /\
    In rec recs /\
    type rec = Str "충전" /\
    original_currency rec = Str "KRW" /\
    original_amount rec = Num orig /\ orig == 50000 /\
    is_income rec = Bool true /\
    amount_gbp rec = Num q /\
    q == 50000 * KRW_TO_GBP_RATE /\ 0 < q /\ 28.57 <= q /\ q <= 28.58.
Proof.
  apply (@C5_topup_scenario Reference.pandas Examples.travelwallet_topup "종류"
           [Str "2024.01.15"; Str "충전"; Str "Bank"; Str "50,000"] 50000).
  - reflexivity.
  - reflexivity.
  - left; reflexivity.
  - reflexivity.
  - vm_compute; reflexivity.
  - reflexivity.
Defined.

(** C6: a row of a Monzo table without an "Amount" column, with "Money In" 0
    and "Money Out" 12.50, is normalized to a record whose amount is
    money_in - |money_out| = -12.50 and that is not marked as income. *)
Theorem C6_money_out_scenario {P : Pandas} (df : DataFrame) (r : row)
  (money_in money_out : Q) :
  has_col df "Date" = true ->
  has_col df "Amount" = false ->
  has_col df "Money Out" = true ->
  has_col df "Money In" = true ->
  In r (df_rows df) ->
  to_numeric (col df "Money In" r) = Num money_in -> money_in == 0 ->
  to_numeric (col df "Money Out" r) = Num money_out -> money_out == 12.5 ->
  exists recs rec q,
    normalized_records df = Ok recs /\ In rec recs /\
    bank rec = Str "Monzo" /\
    amount_gbp rec = Num q /\ q = money_in - Qabs money_out /\ q == -12.5 /\
    is_income rec = Bool false.
Proof.
  intros HD HA HO HI Hr Hin Hin0 Hout Hout125.
  assert (HF : detect_format df = Monzo).
  { unfold detect_format. rewrite HD. now rewrite orb_true_r. }
  destruct (normalize_monzo df) as [n|e] eqn:Hn.
  2:{ pose proof (monzo_ok df) as Hok. unfold monzo_amount_columns in Hok.
      rewrite Hn, HD, HA, HO, HI in Hok. discriminate. }
  assert (Hb : build_normalized df = Ok n).
  { unfold build_normalized. now rewrite HF. }
  destruct (monzo_frame df n HD Hn) as (Hidx & Hbank & Hinc & Hamt).
  specialize (Hinc r). specialize (Hamt r).
  rewrite HI, Hin in Hinc. rewrite HA, Hin, Hout in Hamt.
  cbn [fillna isna cell_abs cell_sub gt0] in *.
  destruct (kept_row df n r Hb) as (recs & Hrecs & Hrec).
  - pose proof (monzo_ok df) as Hok. unfold monzo_amount_columns in Hok.
    rewrite Hn, HD, HA, HO, HI in Hok. exact Hok.
  - now rewrite Hidx.
  - unfold both_missing.
    change (amount_gbp (record_of n r)) with (cell_of n "amount_gbp" r).
    rewrite Hamt. simpl. apply andb_false_r.
  - exists recs, (record_of n r), (money_in - Qabs money_out).
    split; [exact Hrecs|]. split; [exact Hrec|]. split; [apply Hbank|].
    split; [exact Hamt|]. split; [reflexivity|].
    split; [now rewrite Hin0, Hout125|].
    change (is_income (record_of n r)) with (cell_of n "is_income" r).
    rewrite Hinc. now rewrite (Qpositive_zero _ Hin0).
Qed.

Lemma C6_money_out_scenario_witness :
  exists recs rec q,
    @normalized_records Reference.pandas Examples.monzo_money_out = Ok recs /\
    In rec recs /\
    bank rec = Str "Monzo" /\
    amount_gbp rec = Num q /\ q = 0 - Qabs (25 # 2) /\ q == -12.5 /\
    is_income rec = Bool false.
Proof.
  apply (@C6_money_out_scenario Reference.pandas Examples.monzo_money_out
           [Str "15/01/2024"; Str "Shop"; Str "12.50"; Str "0"] 0 (25 # 2)).
  - reflexivity.
  - reflexivity.
  - reflexivity.
  - reflexivity.
  - left; reflexivity.
  - vm_compute; reflexivity.
  - reflexivity.
  - vm_compute; reflexivity.
  - reflexivity.
Defined.

(** ** The Korean loader of [src/data_loader.py] *)

(** [load_korean_excel] converts the amount and leaves its sign alone *)
Lemma load_korean_excel_amount {P : Pandas} (df : DataFrame) (recs : list record) :
  load_korean_excel_table df = Ok recs ->
  Forall (fun rec =>
            amount_gbp rec = cell_scale (original_amount rec) KRW_TO_GBP_RATE)
         recs.
Proof.
  unfold load_korean_excel_table.
  destruct (df_empty df).
  { intros H. injection H as <-. constructor. }
  destruct (rev (numeric_cols df)) as [|amount_col ?].
  { intros H. injection H as <-. constructor. }
  match goal with
  | |- (dates <- ?d;; _) = _ -> _ => destruct d as [dates|e]
  end; simpl; [|discriminate].
  match goal with
  | |- (f <- ?d;; _) = _ -> _ => destruct d as [f|e]
  end; simpl; [|discriminate].
  intros H. injection H as <-.
  apply Forall_forall. intros rec Hin. apply in_map_iff in Hin.
  destruct Hin as ([r d] & <- & _). reflexivity.
Qed.

(** C4: on a TravelWallet sheet with one payment of 12000 KRW (type "결제"),
    [load_korean_excel] returns a record that is not income and whose amount
    is +12000/1750, where the claim asks for a negative amount; the Korean
    branch of [normalize_uploaded_data] returns -12000/1750 for the same
    sheet. *)
Theorem C4_load_korean_excel_payment :
  exists rec sibling,
    @load_korean_excel Reference.pandas (Some (Ok Examples.travelwallet_payment))
      = Ok [rec] /\
    type rec = Str "결제" /\
    is_income rec = Bool false /\
    amount_gbp rec = Num (12000 # 1750) /\
    0 < 12000 # 1750 /\
    @normalized_records Reference.pandas Examples.travelwallet_payment
      = Ok [sibling] /\
    is_income sibling = Bool false /\
    amount_gbp sibling = Num (-12000 # 1750).
Proof.
  eexists. eexists.
  split; [vm_compute; reflexivity|].
  split; [reflexivity|]. split; [reflexivity|]. split; [reflexivity|].
  split; [reflexivity|].
  split; [vm_compute; reflexivity|].
  split; reflexivity.
Qed.

(** ** Header-row detection *)

Section HeaderRow.

Context {P : Pandas}.

Lemma first_marker_row_some (rows : list row) (k i : nat) :
  first_marker_row k rows = Some i <->
  exists j, i = (k + j)%nat /\ (j < length rows)%nat /\
    row_has_marker (nth j rows []) = true /\
    forall j', (j' < j)%nat -> row_has_marker (nth j' rows []) = false.
Proof.
  revert k. induction rows as [|r rows IH]; intros k; simpl.
  - split; [discriminate|]. intros (j & _ & Hj & _). lia.
  - destruct (row_has_marker r) eqn:Hr.
    + split.
      * intros H. injection H as <-. exists 0%nat.
        repeat split; [lia|lia|exact Hr|]. intros j' Hj'. lia.
      * intros (j & -> & _ & Hm & Hbefore).
        destruct j as [|j]; [f_equal; lia|].
        specialize (Hbefore 0%nat ltac:(lia)). simpl in Hbefore. congruence.
    + rewrite IH. split.
      * intros (j & -> & Hj & Hm & Hbefore). exists (S j).
        repeat split; [lia|lia|exact Hm|].
        intros [|j'] Hj'; [exact Hr|]. apply Hbefore. lia.
      * intros (j & -> & Hj & Hm & Hbefore).
        destruct j as [|j]; [simpl in Hm; congruence|].
        exists j. repeat split; [lia|lia|exact Hm|].
        intros j' Hj'. apply (Hbefore (S j')). lia.
Qed.

Lemma first_marker_row_none (rows : list row) (k : nat) :
  first_marker_row k rows = None <->
  forall j, (j < length rows)%nat -> row_has_marker (nth j rows []) = false.
Proof.
  revert k. induction rows as [|r rows IH]; intros k; simpl.
  - split; [intros _ j Hj; lia|reflexivity].
  - destruct (row_has_marker r) eqn:Hr.
    + split; [discriminate|]. intros H.
      specialize (H 0%nat ltac:(lia)). simpl in H. congruence.
    + rewrite IH. split.
      * intros H [|j] Hj; [exact Hr|]. apply H. lia.
      * intros H j Hj. apply (H (S j)). lia.
Qed.

Lemma nth_firstn_lt (rows : list row) (m j : nat) :
  (j < m)%nat -> nth j (firstn m rows) [] = nth j rows [].
Proof.
  revert m j. induction rows as [|r rows IH]; intros m j Hj.
  - now rewrite firstn_nil.
  - destruct m as [|m]; [lia|]. destruct j as [|j]; simpl; [reflexivity|].
    apply IH. lia.
Qed.

Lemma firstn_min_length (rows : list row) (m : nat) :
  firstn (Nat.min m (length rows)) rows = firstn m rows.
Proof.
  destruct (Nat.le_gt_cases m (length rows)) as [H|H].
  - now rewrite Nat.min_l.
  - rewrite Nat.min_r by lia. rewrite firstn_all.
    symmetry. apply firstn_all2. lia.
Qed.

(** C8: the header row is looked for in the first 15 rows only.  The row
    found is the first one with a cell whose text has one of the markers;
    the sheet is then read with that row as header.  When none of the first
    15 rows has a marker, no header row is found and the sheet is read the
    default way, with its top row as header. *)
Theorem C8_header_row (test_df : DataFrame) :
  let rows := df_rows test_df in
  let scanned := Nat.min 15 (length rows) in
  (forall i,
     detect_header_row test_df = Some i <->
     ((i < scanned)%nat /\ row_has_marker (nth i rows []) = true /\
      forall j, (j < i)%nat -> row_has_marker (nth j rows []) = false)) /\
  (detect_header_row test_df = None <->
   forall j, (j < scanned)%nat -> row_has_marker (nth j rows []) = false) /\
  (forall i, detect_header_row test_df = Some i ->
     plan_of (detect_header_row test_df) = KoreanRead i /\
     header_of (plan_of (detect_header_row test_df)) = HeaderRow i) /\
  (detect_header_row test_df = None ->
     plan_of (detect_header_row test_df) = DefaultRead /\
     header_of (plan_of (detect_header_row test_df)) = HeaderRow 0) /\
  (forall other,
     firstn 15 (df_rows other) = firstn 15 rows ->
     detect_header_row other = detect_header_row test_df).
Proof.
  intros rows scanned. unfold detect_header_row. fold rows. fold scanned.
  assert (Hlen : length (firstn scanned rows) = scanned).
  { rewrite length_firstn. unfold scanned. lia. }
  split; [|split; [|split; [|split]]].
  - intros i. rewrite first_marker_row_some. rewrite Hlen. split.
    + intros (j & -> & Hj & Hm & Hbefore). simpl.
      rewrite nth_firstn_lt in Hm by exact Hj.
      repeat split; [exact Hj|exact Hm|].
      intros j' Hj'. rewrite <- (nth_firstn_lt rows scanned) by lia.
      now apply Hbefore.
    + intros (Hi & Hm & Hbefore). exists i.
      repeat split; [exact Hi|now rewrite nth_firstn_lt|].
      intros j' Hj'. rewrite nth_firstn_lt by lia. now apply Hbefore.
  - rewrite first_marker_row_none. rewrite Hlen. split.
    + intros H j Hj. rewrite <- (nth_firstn_lt rows scanned) by exact Hj.
      now apply H.
    + intros H j Hj. rewrite nth_firstn_lt by exact Hj. now apply H.
  - intros i ->. split; reflexivity.
  - intros ->. split; reflexivity.
  - intros other Hsame. unfold scanned, rows.
    now rewrite !firstn_min_length, Hsame.
Qed.

End HeaderRow.

(** A sheet with two title rows above the header: row 2 is found *)
Lemma C8_header_row_witness :
  let sheet :=
    {| df_columns := ["0"; "1"; "2"];
       df_rows := [[Str "TravelWallet"; NA; NA];
                   [NA; NA; NA];
                   [Str "날짜(Date)"; Str "종류(Payment type)"; Str "금액"];
                   [Str "2024.01.15"; Str "충전"; Num 50000]] |} in
  @detect_header_row Reference.pandas sheet = Some 2%nat /\
  plan_of (@detect_header_row Reference.pandas sheet) = KoreanRead 2 /\
  header_of (plan_of (@detect_header_row Reference.pandas sheet)) = HeaderRow 2.
Proof.
  intros sheet.
  assert (E : @detect_header_row Reference.pandas sheet = Some 2%nat)
    by reflexivity.
  split; [exact E|].
  exact (proj1 (proj2 (proj2 (@C8_header_row Reference.pandas sheet))) 2%nat E).
Defined.

(** ** Saving and loading the ledger *)

Lemma map_result_ok {A B} (f : A -> result B) (g : A -> B) (l : list A) :
  (forall a, In a l -> f a = Ok (g a)) -> map_result f l = Ok (map g l).
Proof.
  induction l as [|a l IH]; intros H; simpl; [reflexivity|].
  rewrite (H a (or_introl eq_refl)). simpl.
  rewrite IH by (intros x Hx; apply H; now right). reflexivity.
Qed.

(** [save_combined_csv] writes the rows it is given, in their order; it
    raises, before writing, when the date column holds something else than
    timestamps *)
Lemma save_rows (df : list record) (written : csv_file) :
  save_combined_csv df = Ok written ->
  Forall datetimelike df /\ written = map written_row df.
Proof.
  unfold save_combined_csv. revert written.
  induction df as [|r df IH]; intros written; simpl.
  - intros H. injection H as <-. split; [constructor|reflexivity].
  - assert (Hr : forall d, strftime_ymd (date r) = Ok d ->
                   datetimelike r /\ with_date r d = written_row r).
    { unfold datetimelike, written_row. intros d.
      destruct (date r); simpl; try discriminate;
        intros H; injection H as <-; split; auto. }
    destruct (strftime_ymd (date r)) as [d|e]; simpl; [|discriminate].
    destruct (Hr d eq_refl) as [Hdt ->].
    destruct (map_result _ df) as [w|e]; simpl; [|discriminate].
    intros H. injection H as <-. destruct (IH w eq_refl) as [Hf ->].
    split; [constructor; assumption|reflexivity].
Qed.

Lemma save_datetimelike (df : list record) :
  Forall datetimelike df -> save_combined_csv df = Ok (map written_row df).
Proof.
  intros H. unfold save_combined_csv. apply map_result_ok.
  intros r Hr. rewrite Forall_forall in H. specialize (H r Hr).
  unfold datetimelike in H. unfold written_row.
  destruct (date r); simpl; try contradiction; reflexivity.
Qed.

Lemma with_date_same (r : record) : with_date r (date r) = r.
Proof. now destruct r. Qed.

Lemma read_field_missing {P : Pandas} (d : dtype) : read_field d "" = NA.
Proof. reflexivity. Qed.

(** A timestamp or a missing value of the date column is read as it is *)
Lemma read_date_cell_written {P : Pandas} (col : list cell) (c : cell) :
  In c col ->
  match c with Date _ | NA => True | _ => False end ->
  read_date_cell col c = c.
Proof.
  unfold read_date_cell, read_cell. intros Hin.
  destruct c; try contradiction; intros _; simpl.
  - destruct (existsb is_date col); apply read_field_missing.
  - assert (E : existsb is_date col = true)
      by (apply existsb_exists; eexists; split; [exact Hin|reflexivity]).
    now rewrite E.
Qed.

(** A file whose date column holds timestamps loads, as its rows read *)
Lemma load_dates {P : Pandas} (rows : csv_file) :
  Forall datetimelike rows ->
  load_combined_csv (Some rows) = Ok (read_csv_rows rows).
Proof.
  intros H. unfold load_combined_csv.
  rewrite (map_result_ok _ (fun r => r)); [now rewrite map_id|].
  intros x Hx. unfold read_csv_rows in Hx. apply in_map_iff in Hx.
  destruct Hx as (r & <- & Hr).
  rewrite Forall_forall in H. specialize (H r Hr). unfold datetimelike in H.
  assert (E : date (read_csv_row rows r) = date r)
    by (exact (read_date_cell_written (map date rows) (date r)
                 (in_map date rows r Hr) H)).
  rewrite E.
  destruct (date r) eqn:Hd; try contradiction; simpl;
    now rewrite <- E, with_date_same.
Qed.

Lemma written_datetimelike (df : list record) :
  Forall datetimelike (map written_row df).
Proof.
  apply Forall_forall. intros x Hx. apply in_map_iff in Hx.
  destruct Hx as (r & <- & _). unfold datetimelike, written_row. simpl.
  now destruct (date r).
Qed.

Lemma load_written {P : Pandas} (df : list record) :
  load_combined_csv (Some (map written_row df)) = Ok (reloaded df).
Proof. apply load_dates, written_datetimelike. Qed.

Lemma read_csv_rows_column {P : Pandas} (rows : list record) :
  map time (read_csv_rows rows) = read_csv_column (map time rows) /\
  map bank (read_csv_rows rows) = read_csv_column (map bank rows) /\
  map type (read_csv_rows rows) = read_csv_column (map type rows) /\
  map merchant (read_csv_rows rows) = read_csv_column (map merchant rows) /\
  map category (read_csv_rows rows) = read_csv_column (map category rows) /\
  map amount_gbp (read_csv_rows rows)
    = read_csv_column (map amount_gbp rows) /\
  map original_currency (read_csv_rows rows)
    = read_csv_column (map original_currency rows) /\
  map original_amount (read_csv_rows rows)
    = read_csv_column (map original_amount rows) /\
  map is_income (read_csv_rows rows) = read_csv_column (map is_income rows).
Proof.
  unfold read_csv_rows, read_csv_column.
  repeat split; rewrite !map_map; reflexivity.
Qed.

Lemma written_row_fields (df : list record) :
  map time (map written_row df) = map time df /\
  map bank (map written_row df) = map bank df /\
  map type (map written_row df) = map type df /\
  map merchant (map written_row df) = map merchant df /\
  map category (map written_row df) = map category df /\
  map amount_gbp (map written_row df) = map amount_gbp df /\
  map original_currency (map written_row df) = map original_currency df /\
  map original_amount (map written_row df) = map original_amount df /\
  map is_income (map written_row df) = map is_income df.
Proof. repeat split; rewrite map_map; reflexivity. Qed.

(** C3, as stated, fails: a ledger of two rows out of date order is loaded
    back in the order it was saved, not sorted; and a ledger holding the
    same row twice is loaded back with both rows. *)
Lemma C3_counterexample :
  @roundtrip Reference.pandas [Examples.february; Examples.january]
    = Ok [Examples.february; Examples.january] /\
  sort_values (drop_duplicates [Examples.february; Examples.january])
    = [Examples.january; Examples.february] /\
  @roundtrip Reference.pandas [Examples.february; Examples.january]
    <> Ok (sort_values (drop_duplicates [Examples.february; Examples.january])) /\
  @roundtrip Reference.pandas [Examples.january; Examples.january]
    = Ok [Examples.january; Examples.january] /\
  sort_values (drop_duplicates [Examples.january; Examples.january])
    = [Examples.january] /\
  @roundtrip Reference.pandas [Examples.january; Examples.january]
    <> Ok (sort_values (drop_duplicates [Examples.january; Examples.january])).
Proof.
  assert (E1 : @roundtrip Reference.pandas [Examples.february; Examples.january]
               = Ok [Examples.february; Examples.january])
    by (vm_compute; reflexivity).
  assert (E2 : @roundtrip Reference.pandas [Examples.january; Examples.january]
               = Ok [Examples.january; Examples.january])
    by (vm_compute; reflexivity).
  split; [exact E1|]. split; [vm_compute; reflexivity|].
  split; [rewrite E1; vm_compute; discriminate|].
  split; [exact E2|]. split; [vm_compute; reflexivity|].
  rewrite E2; vm_compute; discriminate.
Qed.

(** C3 (amended): loading the ledger after saving it returns one row for
    every row that was saved, as many times and in the order it was given.
    The date of row [i] is the date of the row saved as row [i], cut to the
    day.  Every other column comes back as [pd.read_csv] reads the column
    that was written: a field that is empty or one of the missing-value
    texts ("nan", "N/A", "NA", "None", "null" and the like) is missing, a
    column whose other fields are all numbers holds numbers, one whose
    other fields are all booleans holds booleans, and any other column
    holds the texts of its fields.  Nothing is sorted and nothing is
    de-duplicated on the way. *)
Theorem C3_roundtrip {P : Pandas} (df : list record) :
  Forall datetimelike df ->
  exists loaded,
    roundtrip df = Ok loaded /\
    length loaded = length df /\
    map date loaded =
      map (fun r => match date r with
                    | Date t => Date (date_only t)
                    | _ => NA
                    end) df /\
    map time loaded = read_csv_column (map time df) /\
    map bank loaded = read_csv_column (map bank df) /\
    map type loaded = read_csv_column (map type df) /\
    map merchant loaded = read_csv_column (map merchant df) /\
    map category loaded = read_csv_column (map category df) /\
    map amount_gbp loaded = read_csv_column (map amount_gbp df) /\
    map original_currency loaded
      = read_csv_column (map original_currency df) /\
    map original_amount loaded = read_csv_column (map original_amount df) /\
    map is_income loaded = read_csv_column (map is_income df).
Proof.
  intros H. exists (reloaded df).
  split.
  { unfold roundtrip. rewrite (save_datetimelike df H). cbn [bind].
    apply load_written. }
  unfold reloaded.
  split; [unfold read_csv_rows; now rewrite !length_map|].
  split.
  { unfold read_csv_rows. rewrite !map_map. apply map_ext_in.
    intros r Hr. cbn [read_csv_row date].
    rewrite read_date_cell_written.
    - reflexivity.
    - rewrite map_map. exact (in_map (fun x => date (written_row x)) df r Hr).
    - unfold written_row. simpl. now destruct (date r). }
  destruct (read_csv_rows_column (map written_row df))
    as (H1 & H2 & H3 & H4 & H5 & H6 & H7 & H8 & H9).
  destruct (written_row_fields df)
    as (F1 & F2 & F3 & F4 & F5 & F6 & F7 & F8 & F9).
  rewrite F1 in H1. rewrite F2 in H2. rewrite F3 in H3. rewrite F4 in H4.
  rewrite F5 in H5. rewrite F6 in H6. rewrite F7 in H7. rewrite F8 in H8.
  rewrite F9 in H9.
  repeat split; assumption.
Qed.

(** The January payment saved twice comes back twice, and its text "nan"
    would come back missing *)
Lemma C3_roundtrip_witness :
  exists loaded,
    @roundtrip Reference.pandas [Examples.january; Examples.january]
      = Ok loaded /\
    length loaded = 2%nat /\
    map date loaded = [Date 1704412800; Date 1704412800] /\
    @read_csv_column Reference.pandas [Str "nan"; Str "Card payment"]
      = [NA; Str "Card payment"].
Proof.
  destruct (@C3_roundtrip Reference.pandas
              [Examples.january; Examples.january])
    as (loaded & E & Hlen & Hdate & _); [repeat constructor|].
  exists loaded. split; [exact E|]. split; [exact Hlen|].
  split; [exact Hdate|]. vm_compute. reflexivity.
Defined.

(** ** Duplicates *)

Lemma cell_eqb_refl (c : cell) : cell_eqb c c = true.
Proof.
  destruct c; simpl; auto.
  - apply String.eqb_refl.
  - apply Qeq_bool_iff. reflexivity.
  - apply Bool.eqb_reflx.
  - apply Z.eqb_refl.
Qed.

Lemma cell_eqb_trans (a b c : cell) :
  cell_eqb a b = true -> cell_eqb b c = true -> cell_eqb a c = true.
Proof.
  destruct a, b; simpl; try discriminate; destruct c; simpl; try discriminate;
    auto.
  - rewrite !String.eqb_eq. congruence.
  - rewrite !Qeq_bool_iff. intros H1 H2. now rewrite H1.
  - rewrite !Bool.eqb_true_iff. congruence.
  - rewrite !Z.eqb_eq. congruence.
Qed.

Lemma record_eqb_refl (r : record) : record_eqb r r = true.
Proof. unfold record_eqb. now rewrite !cell_eqb_refl. Qed.

Lemma record_eqb_trans (a b c : record) :
  record_eqb a b = true -> record_eqb b c = true -> record_eqb a c = true.
Proof.
  unfold record_eqb. rewrite !andb_true_iff.
  intros H1 H2.
  repeat match goal with H : _ /\ _ |- _ => destruct H end.
  repeat split; eapply cell_eqb_trans; eassumption.
Qed.

Lemma sublist_refl (l : list record) : sublist l l.
Proof. induction l; constructor; assumption. Qed.

Lemma sublist_filter (p : record -> bool) (l : list record) :
  sublist (filter p l) l.
Proof.
  induction l as [|r l IH]; simpl; [constructor|].
  destruct (p r); constructor; assumption.
Qed.

Lemma sublist_trans (a b c : list record) :
  sublist a b -> sublist b c -> sublist a c.
Proof.
  intros Hab Hbc. revert a Hab.
  induction Hbc as [|r b c Hbc IH|r b c Hbc IH]; intros a Hab.
  - exact Hab.
  - inversion Hab; subst.
    + constructor. now apply IH.
    + apply sublist_skip. now apply IH.
  - apply sublist_skip. now apply IH.
Qed.

Lemma duplicate_free_filter (p : record -> bool) (l : list record) :
  duplicate_free l -> duplicate_free (filter p l).
Proof.
  induction 1 as [|r l Hr Hl IH]; simpl; [constructor|].
  destruct (p r); [|exact IH].
  constructor; [|exact IH].
  intros x Hx. apply filter_In in Hx. now apply Hr.
Qed.

Lemma drop_duplicates_sublist (l : list record) : sublist (drop_duplicates l) l.
Proof.
  induction l as [|r l IH]; simpl; constructor.
  eapply sublist_trans; [apply sublist_filter|exact IH].
Qed.

Lemma drop_duplicates_free (l : list record) : duplicate_free (drop_duplicates l).
Proof.
  induction l as [|r l IH]; simpl; constructor.
  - intros x Hx. apply filter_In in Hx. destruct Hx as [_ Hx].
    now apply negb_true_iff.
  - now apply duplicate_free_filter.
Qed.

Lemma drop_duplicates_complete (l : list record) (x : record) :
  In x l -> exists y, In y (drop_duplicates l) /\ record_eqb y x = true.
Proof.
  induction l as [|r l IH]; simpl; [contradiction|].
  intros [<-|Hx].
  - exists r. split; [now left|apply record_eqb_refl].
  - destruct (IH Hx) as (y & Hy & Hyx).
    destruct (record_eqb r y) eqn:Hry.
    + exists r. split; [now left|]. eapply record_eqb_trans; eassumption.
    + exists y. split; [|exact Hyx]. right. apply filter_In.
      split; [exact Hy|]. now rewrite Hry.
Qed.

(** ** Sorting by date *)

Lemma date_le_total (a b : record) : date_le a b = false -> date_le b a = true.
Proof.
  unfold date_le. destruct (date_key a), (date_key b); try discriminate; auto.
  rewrite Z.leb_gt. intros H. apply Z.leb_le. lia.
Qed.

Lemma insert_by_date_sorted (r : record) (l : list record) :
  date_sorted l -> date_sorted (insert_by_date r l).
Proof.
  unfold date_sorted.
  induction l as [|x l IH]; intros Hs; simpl.
  - repeat constructor.
  - destruct (date_le r x) eqn:Hrx.
    + constructor; [exact Hs|]. constructor. exact Hrx.
    + inversion Hs as [|? ? Hs' Hhd]; subst.
      constructor; [now apply IH|].
      destruct l as [|y l]; simpl.
      * constructor. now apply date_le_total.
      * destruct (date_le r y); constructor.
        -- now apply date_le_total.
        -- now inversion Hhd.
Qed.

Lemma insert_by_date_perm (r : record) (l : list record) :
  Permutation (insert_by_date r l) (r :: l).
Proof.
  induction l as [|x l IH]; simpl; [reflexivity|].
  destruct (date_le r x); [reflexivity|].
  rewrite IH. apply perm_swap.
Qed.

Lemma sort_values_sorted (l : list record) : date_sorted (sort_values l).
Proof.
  induction l as [|r l IH]; simpl.
  - constructor.
  - now apply insert_by_date_sorted.
Qed.

Lemma sort_values_perm (l : list record) : Permutation (sort_values l) l.
Proof.
  induction l as [|r l IH]; simpl; [reflexivity|].
  rewrite insert_by_date_perm. now constructor.
Qed.

Lemma normalize_and_merge_sorts (monzo_df korean_df : list record) :
  normalize_and_merge monzo_df korean_df
  = sort_values (monzo_df ++ korean_df)%list.
Proof.
  unfold normalize_and_merge.
  destruct monzo_df as [|m ms], korean_df as [|k ks]; simpl;
    rewrite ?app_nil_r; reflexivity.
Qed.

(** ** The upload route *)

Section UploadFacts.

Context {P : Pandas} {R : Readers}.

(** After a save the file loads again: [reload_data] does not raise *)
Lemma reload_after_save (combined : list record) (written : csv_file)
  (st : state) :
  save_combined_csv combined = Ok written ->
  ledger_file st = Some written ->
  reload_data st =
    Ok {| ledger_file := Some written;
          history_json := history_json st;
          df_cache := Some (reloaded combined) |}.
Proof.
  intros Hs Hl. destruct (save_rows combined written Hs) as [Hf ->].
  unfold reload_data. now rewrite Hl, (load_written combined).
Qed.

(** The ways of [api_upload]: either no file is touched and the answer is
    an error, or the merged rows were saved and loaded again, and the
    answer is the success answer unless the update of the history raises *)
Lemma upload_cases (now : string) (request : option upload)
  (st st' : state) (resp : response) :
  api_upload now request st = (resp, st') ->
  (st' = st /\
   forall added total bank_type, resp <> Success added total bank_type) \/
  exists file normalized first rest,
    request = Some file /\
    read_upload file = inl (Ok normalized) /\
    records normalized = first :: rest /\
    ledger_file st' =
      Some (map written_row
              (merge_ledger (ledger_file st) (records normalized))) /\
    df_cache st' =
      Some (reloaded (merge_ledger (ledger_file st) (records normalized))) /\
    match update_upload_history (filename file) (bank first)
            (length (records normalized)) (original_currency first) now
            (history_json st) with
    | Ok history =>
        resp = Success (length (records normalized))
                 (length (merge_ledger (ledger_file st) (records normalized)))
                 (bank first) /\
        history_json st' = history
    | Raise e => resp = ServerError e /\ history_json st' = history_json st
    end.
Proof.
  unfold api_upload.
  destruct request as [file|];
    [|intros H; injection H as <- <-; left; split; [reflexivity|discriminate]].
  destruct (String.eqb (filename file) "");
    [intros H; injection H as <- <-; left; split; [reflexivity|discriminate]|].
  destruct (read_upload file) as [[normalized|e]|m] eqn:Hread;
    try (intros H; injection H as <- <-; left;
         split; [reflexivity|discriminate]).
  destruct (records normalized) as [|first rest] eqn:Hrec;
    [intros H; injection H as <- <-; left; split; [reflexivity|discriminate]|].
  destruct (save_combined_csv _) as [written|e] eqn:Hs;
    [|intros H; injection H as <- <-; left; split; [reflexivity|discriminate]].
  rewrite (reload_after_save _ written
             {| ledger_file := Some written;
                history_json := history_json st;
                df_cache := df_cache st |} Hs eq_refl).
  cbn [ledger_file history_json df_cache].
  destruct (save_rows _ _ Hs) as [_ ->].
  intros H. right. exists file, normalized, first, rest.
  rewrite Hrec.
  split; [reflexivity|]. split; [exact Hread|]. split; [reflexivity|].
  destruct (update_upload_history _ _ _ _ _ _) as [history|e];
    injection H as <- <-; cbn [ledger_file history_json df_cache];
    repeat split; reflexivity.
Qed.

(** What a successful upload leaves in the ledger file *)
Lemma upload_success (now : string) (file : upload) (st st' : state)
  (added total : nat) (bank_type : cell) :
  api_upload now (Some file) st = (Success added total bank_type, st') ->
  exists normalized,
    read_upload file = inl (Ok normalized) /\
    ledger_file st' =
      Some (map written_row
              (merge_ledger (ledger_file st) (records normalized))).
Proof.
  intros H. destruct (upload_cases _ _ _ _ _ H) as [[_ Hno]|Hyes].
  - now destruct (Hno added total bank_type).
  - destruct Hyes as (f & normalized & first & rest & Hf & Hread & _ & Hl & _).
    injection Hf as <-. now exists normalized.
Qed.

(** The update of a history file the app wrote does not raise *)
Lemma update_raises (name : string) (bank_type : cell) (n : nat)
  (currency : cell) (now : string) (history : history_content) (e : exn) :
  update_upload_history name bank_type n currency now history = Raise e ->
  exists j, history = Foreign j /\
            add_to_foreign_history name bank_type n currency now j = Raise e.
Proof.
  destruct history as [files|j]; [discriminate|]. simpl.
  destruct (add_to_foreign_history _ _ _ _ _ j) as [j'|e'] eqn:E;
    [discriminate|].
  intros H. injection H as <-. now exists j.
Qed.

(** An upload that is not answered with success leaves every file as it
    was, unless the update of the history raised: then the ledger has been
    saved *)
Lemma upload_failure (now : string) (request : option upload) (st st' : state)
  (resp : response) :
  api_upload now request st = (resp, st') ->
  (forall added total bank_type, resp <> Success added total bank_type) ->
  st' = st \/
  exists file normalized first rest j e,
    request = Some file /\
    read_upload file = inl (Ok normalized) /\
    records normalized = first :: rest /\
    history_json st = Foreign j /\
    add_to_foreign_history (filename file) (bank first)
      (length (records normalized)) (original_currency first) now j
    = Raise e /\
    resp = ServerError e /\
    history_json st' = Foreign j /\
    ledger_file st' =
      Some (map written_row
              (merge_ledger (ledger_file st) (records normalized))).
Proof.
  intros H Hno. destruct (upload_cases _ _ _ _ _ H) as [[E _]|Hyes];
    [now left|right].
  destruct Hyes
    as (file & normalized & first & rest & Hf & Hread & Hrec & Hl & _ & Hu).
  destruct (update_upload_history _ _ _ _ _ _) as [history|e] eqn:E.
  - destruct Hu as [-> _]. now destruct (Hno _ _ _ eq_refl).
  - destruct Hu as [-> Hh].
    destruct (update_raises _ _ _ _ _ _ _ E) as (j & Hj & Hraise).
    exists file, normalized, first, rest, j, e.
    rewrite Hh, Hj. repeat split; assumption.
Qed.

End UploadFacts.

(** ** The merge *)

(** C2, as stated, fails: uploading a CSV file with a January payment onto a
    ledger holding a February payment persists the February row first and
    the January row after it; the file is not sorted by date. *)
Lemma C2_counterexample :
  exists st',
    @api_upload Reference.pandas Examples.readers "2024-03-01T12:00:00"
      (Some Examples.upload_csv) Examples.ledger_of_february
    = (Success 1 2 (Str "Monzo"), st') /\
    ledger_file st' = Some [Examples.february; Examples.january] /\
    ~ date_sorted [Examples.february; Examples.january].
Proof.
  eexists. split; [vm_compute; reflexivity|].
  split; [reflexivity|].
  unfold date_sorted. intros H.
  inversion H as [|? ? _ Hhd]; subst.
  inversion Hhd as [|? ? Hle]; subst.
  vm_compute in Hle. discriminate.
Qed.

(** C2 (amended): the upload route appends the new rows to the rows loaded
    from the ledger file and removes exact duplicates, keeping the first of
    each group of equal rows and the order of the rows kept; that list,
    unsorted, is what it writes to the ledger file (only the new rows when
    the file does not load).  Sorting by date is done by
    [normalize_and_merge], the merge of the two bank loads: its result is
    sorted ascending by date and holds the rows of both frames, duplicates
    included. *)
Theorem C2_merge {P : Pandas} {R : Readers} :
  (forall now file st st' added total bank_type,
     api_upload now (Some file) st = (Success added total bank_type, st') ->
     exists normalized,
       read_upload file = inl (Ok normalized) /\
       ledger_file st' =
         Some (map written_row
                 (merge_ledger (ledger_file st) (records normalized)))) /\
  (forall file new_df,
     merge_ledger file new_df =
       match load_combined_csv file with
       | Ok existing_df => drop_duplicates (existing_df ++ new_df)
       | Raise _ => new_df
       end) /\
  (forall l,
     sublist (drop_duplicates l) l /\
     duplicate_free (drop_duplicates l) /\
     forall x, In x l ->
       exists y, In y (drop_duplicates l) /\ record_eqb y x = true) /\
  (forall monzo_df korean_df,
     date_sorted (normalize_and_merge monzo_df korean_df) /\
     Permutation (normalize_and_merge monzo_df korean_df)
                 (monzo_df ++ korean_df)).
Proof.
  split; [|split; [|split]].
  - intros now file st st' added total bank_type H.
    exact (upload_success now file st st' added total bank_type H).
  - reflexivity.
  - intros l. split; [apply drop_duplicates_sublist|].
    split; [apply drop_duplicates_free|].
    intros x Hx. now apply drop_duplicates_complete.
  - intros monzo_df korean_df. rewrite normalize_and_merge_sorts.
    split; [apply sort_values_sorted|apply sort_values_perm].
Qed.

(** The upload of the January payment onto the February ledger *)
Lemma C2_merge_witness :
  exists st' normalized,
    @api_upload Reference.pandas Examples.readers "2024-03-01T12:00:00"
      (Some Examples.upload_csv) Examples.ledger_of_february
    = (Success 1 2 (Str "Monzo"), st') /\
    @read_upload Reference.pandas Examples.readers Examples.upload_csv
    = inl (Ok normalized) /\
    ledger_file st' =
      Some (map written_row
              (@merge_ledger Reference.pandas
                 (ledger_file Examples.ledger_of_february)
                 (records normalized))).
Proof.
  eexists.
  assert (E : @api_upload Reference.pandas Examples.readers
                "2024-03-01T12:00:00" (Some Examples.upload_csv)
                Examples.ledger_of_february
              = (Success 1 2 (Str "Monzo"), _)) by (vm_compute; reflexivity).
  destruct (proj1 (@C2_merge Reference.pandas Examples.readers) _ _ _ _ _ _ _ E)
    as (normalized & Hread & Hledger).
  exists normalized. split; [exact E|]. split; [exact Hread|exact Hledger].
Defined.

(** ** A failed upload *)

(** C7, as stated, fails: the ledger is saved before the upload history is
    updated.  With a history file that holds the JSON text [[]], the upload
    of the January payment is answered with an error (the look-up of
    'files' in a list raises), and the ledger file holds the January
    payment by then. *)
Lemma C7_counterexample :
  exists e st',
    @api_upload Reference.pandas Examples.readers "2024-03-01T12:00:00"
      (Some Examples.upload_csv) Examples.history_of_another_shape
    = (ServerError e, st') /\
    ledger_file Examples.history_of_another_shape
      = Some [Examples.february] /\
    ledger_file st' = Some [Examples.february; Examples.january] /\
    st' <> Examples.history_of_another_shape.
Proof.
  eexists. eexists. split; [vm_compute; reflexivity|].
  split; [reflexivity|]. split; [reflexivity|]. discriminate.
Qed.

(** C7 (amended): an upload whose file name ends neither in .csv nor in
    .xlsx or .xls is answered with the unsupported-format error and nothing
    is saved.  Whatever the upload, a 400 answer leaves the ledger file,
    the history file and the cache as they were, and so does a 500 answer
    when the history file is one the app wrote (or is absent, or is not
    JSON).  The one failure after the save is the update of the upload
    history, on a history file holding JSON of another shape: the answer
    is the exception raised there, the history file is left as it was,
    and the ledger file holds the merged rows. *)
Theorem C7_failed_upload {P : Pandas} {R : Readers}
  (now : string) (request : option upload) (st : state) :
  (forall file,
     request = Some file ->
     filename file <> "" ->
     endswith (lower (filename file)) ".csv" = false ->
     endswith (lower (filename file)) ".xlsx" = false ->
     endswith (lower (filename file)) ".xls" = false ->
     api_upload now request st = (BadRequest UnsupportedFormat, st)) /\
  (forall m st', api_upload now request st = (BadRequest m, st') -> st' = st) /\
  (forall e st' files,
     api_upload now request st = (ServerError e, st') ->
     history_json st = Files files ->
     st' = st) /\
  (forall resp st',
     api_upload now request st = (resp, st') ->
     (forall added total bank_type, resp <> Success added total bank_type) ->
     st' = st \/
     exists file normalized first rest j e,
       request = Some file /\
       read_upload file = inl (Ok normalized) /\
       records normalized = first :: rest /\
       history_json st = Foreign j /\
       add_to_foreign_history (filename file) (bank first)
         (length (records normalized)) (original_currency first) now j
       = Raise e /\
       resp = ServerError e /\
       history_json st' = Foreign j /\
       ledger_file st' =
         Some (map written_row
                 (merge_ledger (ledger_file st) (records normalized)))).
Proof.
  split; [|split; [|split]].
  - intros file -> Hname Hcsv Hxlsx Hxls.
    unfold api_upload, read_upload.
    apply String.eqb_neq in Hname. rewrite Hname, Hcsv, Hxlsx, Hxls.
    reflexivity.
  - intros m st' H.
    destruct (upload_failure now request st st' _ H) as [E|Hsaved];
      [discriminate|exact E|].
    destruct Hsaved as (? & ? & ? & ? & ? & ? & _ & _ & _ & _ & _ & F & _).
    discriminate.
  - intros e st' files H Hfiles.
    destruct (upload_failure now request st st' _ H) as [E|Hsaved];
      [discriminate|exact E|].
    destruct Hsaved as (? & ? & ? & ? & ? & ? & _ & _ & _ & F & _).
    rewrite Hfiles in F. discriminate.
  - intros resp st' H Hno. exact (upload_failure now request st st' resp H Hno).
Qed.

(** A text file uploaded onto the February ledger *)
Lemma C7_failed_upload_witness :
  @api_upload Reference.pandas Examples.readers "2024-03-01T12:00:00"
    (Some Examples.upload_txt) Examples.ledger_of_february
  = (BadRequest UnsupportedFormat, Examples.ledger_of_february).
Proof.
  apply (proj1 (@C7_failed_upload Reference.pandas Examples.readers
                  "2024-03-01T12:00:00" (Some Examples.upload_txt)
                  Examples.ledger_of_february) Examples.upload_txt).
  - reflexivity.
  - discriminate.
  - reflexivity.
  - reflexivity.
  - reflexivity.
Defined.

(** ** The upload history *)

Lemma history_names (name : string) (bank_type : cell) (n : nat)
  (currency : cell) (now : string) (history : list history_entry) :
  map h_filename (add_to_upload_history name bank_type n currency now history) =
  (if existsb (fun e => String.eqb (h_filename e) name) history
   then map h_filename history
   else map h_filename history ++ [name])%list.
Proof.
  induction history as [|e history IH]; simpl; [reflexivity|].
  destruct (String.eqb (h_filename e) name) eqn:He; simpl; [reflexivity|].
  rewrite IH. now destruct (existsb _ history).
Qed.

Lemma history_count_same (name : string) (bank_type : cell) (n : nat)
  (currency : cell) (now : string) (history : list history_entry) :
  transactions_of name
    (add_to_upload_history name bank_type n currency now history) = n.
Proof.
  induction history as [|e history IH]; simpl.
  - now rewrite String.eqb_refl.
  - destruct (String.eqb (h_filename e) name) eqn:He; simpl; now rewrite He.
Qed.

Lemma history_count_other (name other : string) (bank_type : cell) (n : nat)
  (currency : cell) (now : string) (history : list history_entry) :
  other <> name ->
  transactions_of other
    (add_to_upload_history name bank_type n currency now history) =
  transactions_of other history.
Proof.
  intros Hother. apply String.eqb_neq in Hother.
  rewrite String.eqb_sym in Hother.
  induction history as [|e history IH]; simpl.
  - now rewrite Hother.
  - destruct (String.eqb (h_filename e) name) eqn:He; simpl.
    + apply String.eqb_eq in He. rewrite He. now rewrite Hother.
    + now destruct (String.eqb (h_filename e) other).
Qed.

(** X1: [add_to_upload_history] is an upsert by file name.  Afterwards the
    count stored for the name is the new count; the counts of the other
    names are what they were; the list of file names is unchanged when the
    name was known and has the name appended otherwise, so distinct names
    stay distinct. *)
Theorem history_upsert (name : string) (bank_type : cell) (n : nat)
  (currency : cell) (now : string) (history : list history_entry) :
  let history' :=
    add_to_upload_history name bank_type n currency now history in
  transactions_of name history' = n /\
  (forall other, other <> name ->
     transactions_of other history' = transactions_of other history) /\
  map h_filename history' =
    (if existsb (fun e => String.eqb (h_filename e) name) history
     then map h_filename history
     else map h_filename history ++ [name])%list /\
  (NoDup (map h_filename history) -> NoDup (map h_filename history')).
Proof.
  simpl. split; [apply history_count_same|].
  split; [intros other H; now apply history_count_other|].
  split; [apply history_names|].
  intros Hnd. rewrite history_names.
  destruct (existsb _ history) eqn:Hex; [exact Hnd|].
  apply NoDup_app; [exact Hnd|repeat constructor; intros []|].
  intros x Hx [Heq|[]]. subst x.
  apply in_map_iff in Hx. destruct Hx as (e & He & Hin).
  assert (F : existsb (fun e => String.eqb (h_filename e) name) history = true).
  { apply existsb_exists. exists e. split; [exact Hin|].
    now apply String.eqb_eq. }
  congruence.
Qed.

(** X2: an upload under a file name the history already has updates the
    count and the time of that entry only: the bank, the currency and the
    source recorded at the first upload are kept, whatever the new upload
    brings; the entries of other files are left as they are. *)
Theorem history_keeps_first_bank (name : string) (bank_type : cell) (n : nat)
  (currency : cell) (now : string) (history : list history_entry)
  (e : history_entry) :
  find (fun e => String.eqb (h_filename e) name) history = Some e ->
  let history' :=
    add_to_upload_history name bank_type n currency now history in
  find (fun e => String.eqb (h_filename e) name) history' =
    Some {| h_filename := h_filename e; h_bank := h_bank e;
            h_transactions := n; h_currency := h_currency e;
            h_uploaded_at := now; h_source := h_source e |} /\
  length history' = length history /\
  (forall other, In other history -> h_filename other <> name ->
     In other history').
Proof.
  simpl. induction history as [|x history IH]; simpl; [discriminate|].
  destruct (String.eqb (h_filename x) name) eqn:Hx.
  - intros H. injection H as <-. simpl. rewrite Hx.
    split; [reflexivity|]. split; [reflexivity|].
    intros other [<-|Hin] Hne; [|now right].
    apply String.eqb_neq in Hne. congruence.
  - intros H. destruct (IH H) as (Hf & Hl & Ho). simpl. rewrite Hx.
    split; [exact Hf|]. split; [now rewrite Hl|].
    intros other [<-|Hin] Hne; [now left|]. right. now apply Ho.
Qed.

Lemma history_keeps_first_bank_witness :
  find (fun e => String.eqb (h_filename e) "january.csv")
    (add_to_upload_history "january.csv" (Str "TravelWallet (Korea)") 7
       (Str "KRW") "2024-04-01T09:00:00" MoreExamples.one_upload) =
  Some {| h_filename := "january.csv"; h_bank := Str "Monzo";
          h_transactions := 7; h_currency := Str "GBP";
          h_uploaded_at := "2024-04-01T09:00:00"; h_source := "upload" |}.
Proof.
  apply (history_keeps_first_bank "january.csv" (Str "TravelWallet (Korea)") 7
           (Str "KRW") "2024-04-01T09:00:00" MoreExamples.one_upload
           {| h_filename := "january.csv"; h_bank := Str "Monzo";
              h_transactions := 1; h_currency := Str "GBP";
              h_uploaded_at := "2024-03-01T12:00:00"; h_source := "upload" |}).
  reflexivity.
Defined.

(** X3: the totals of the upload history route follow the upsert: the
    number of files grows by one exactly when the name is new, and the
    total of transactions is the old total with the count stored for the
    name replaced by the new count. *)
Theorem history_totals_after_upload (name : string) (bank_type : cell)
  (n : nat) (currency : cell) (now : string) (history : list history_entry) :
  let before := api_upload_history history in
  let after :=
    api_upload_history
      (add_to_upload_history name bank_type n currency now history) in
  (total_transactions after + transactions_of name history
   = total_transactions before + n)%nat /\
  total_files after =
    (if existsb (fun e => String.eqb (h_filename e) name) history
     then total_files before else S (total_files before)).
Proof.
  simpl. split.
  - induction history as [|e history IH]; simpl; [lia|].
    destruct (String.eqb (h_filename e) name); simpl; lia.
  - rewrite <- (length_map h_filename), history_names.
    destruct (existsb _ history); rewrite ?length_app, length_map; simpl; lia.
Qed.

(** ** Duplicates, again *)

Lemma filter_all {A} (p : A -> bool) (l : list A) :
  (forall x, In x l -> p x = true) -> filter p l = l.
Proof.
  induction l as [|a l IH]; intros H; simpl; [reflexivity|].
  rewrite (H a (or_introl eq_refl)). f_equal. apply IH.
  intros x Hx. apply H. now right.
Qed.

Lemma filter_none {A} (p : A -> bool) (l : list A) :
  (forall x, In x l -> p x = false) -> filter p l = [].
Proof.
  induction l as [|a l IH]; intros H; simpl; [reflexivity|].
  rewrite (H a (or_introl eq_refl)). apply IH.
  intros x Hx. apply H. now right.
Qed.

Lemma filter_twice {A} (p q : A -> bool) (l : list A) :
  filter p (filter q l) = filter (fun x => q x && p x) l.
Proof.
  induction l as [|a l IH]; simpl; [reflexivity|].
  destruct (q a); simpl; [destruct (p a)|]; now rewrite IH.
Qed.

Lemma sublist_In (a b : list record) (x : record) :
  sublist a b -> In x a -> In x b.
Proof.
  induction 1 as [|r a b _ IH|r a b _ IH]; simpl; [tauto| |].
  - intros [->|H]; [now left|right; now apply IH].
  - intros H. right. now apply IH.
Qed.

Lemma drop_duplicates_fixed (l : list record) :
  duplicate_free l -> drop_duplicates l = l.
Proof.
  induction 1 as [|r l Hr _ IH]; simpl; [reflexivity|].
  rewrite IH. f_equal. apply filter_all.
  intros x Hx. now rewrite (Hr x Hx).
Qed.

(** The rows of [m] that no row of [l] equals *)
Lemma drop_duplicates_app (l m : list record) :
  drop_duplicates (l ++ m) =
  (drop_duplicates l ++
   filter (fun x => negb (existsb (fun y => record_eqb y x) l))
          (drop_duplicates m))%list.
Proof.
  induction l as [|r l IH]; simpl.
  - symmetry. now apply filter_all.
  - f_equal. rewrite IH, filter_app. f_equal.
    rewrite filter_twice. apply filter_ext. intros x.
    now destruct (record_eqb r x), (existsb (fun y => record_eqb y x) l).
Qed.

(** X4: [drop_duplicates] leaves a list without duplicates as it is, so
    removing duplicates twice is removing them once. *)
Theorem drop_duplicates_idempotent (l : list record) :
  drop_duplicates (drop_duplicates l) = drop_duplicates l /\
  (duplicate_free l -> drop_duplicates l = l).
Proof.
  split; [|apply drop_duplicates_fixed].
  apply drop_duplicates_fixed, drop_duplicates_free.
Qed.

(** X5: when the ledger file loads and every uploaded row equals a row
    already in it, the merge of the upload route is the ledger it loaded,
    with its own duplicates removed: the upload adds no row. *)
Theorem reupload_adds_nothing {P : Pandas} (file : option csv_file)
  (existing new_df : list record) :
  load_combined_csv file = Ok existing ->
  (forall x, In x new_df ->
     exists y, In y existing /\ record_eqb y x = true) ->
  merge_ledger file new_df = drop_duplicates existing.
Proof.
  intros Hload Hknown. unfold merge_ledger. rewrite Hload.
  rewrite drop_duplicates_app, filter_none; [apply app_nil_r|].
  intros x Hx.
  destruct (Hknown x (sublist_In _ _ x (drop_duplicates_sublist new_df) Hx))
    as (y & Hy & Heq).
  apply negb_false_iff, existsb_exists. now exists y.
Qed.

Lemma reupload_adds_nothing_witness :
  @merge_ledger Reference.pandas (Some [Examples.february; Examples.january])
    [Examples.january]
  = drop_duplicates [Examples.february; Examples.january].
Proof.
  apply (@reupload_adds_nothing Reference.pandas
           (Some [Examples.february; Examples.january])
           [Examples.february; Examples.january] [Examples.january]).
  - vm_compute; reflexivity.
  - intros x [<-|[]]. exists Examples.january.
    split; [right; left; reflexivity|reflexivity].
Defined.

Lemma map_result_in {A B} (f : A -> result B) (l : list A) (l' : list B) :
  map_result f l = Ok l' ->
  forall y, In y l' -> exists x, In x l /\ f x = Ok y.
Proof.
  revert l'. induction l as [|a l IH]; intros l'; simpl.
  - intros H. injection H as <-. intros y [].
  - destruct (f a) as [b|e] eqn:Hfa; simpl; [|discriminate].
    destruct (map_result f l) as [bs|e]; simpl; [|discriminate].
    intros H. injection H as <-. intros y [<-|Hy].
    + exists a. split; [now left|exact Hfa].
    + destruct (IH bs eq_refl y Hy) as (x & Hx & Hfx).
      exists x. split; [now right|exact Hfx].
Qed.







(** ** Saving, again *)

Lemma date_only_monotone (a b : Z) :
  (a <= b)%Z -> (date_only a <= date_only b)%Z.
Proof.
  intros H. unfold date_only.
  apply Z.mul_le_mono_nonneg_l; [lia|]. apply Z.div_le_mono; lia.
Qed.

Lemma written_row_date_le (a b : record) :
  date_le a b = true -> date_le (written_row a) (written_row b) = true.
Proof.
  unfold date_le, date_key, written_row. simpl.
  destruct (date a), (date b); simpl; auto.
  rewrite !Z.leb_le. apply date_only_monotone.
Qed.

Lemma written_rows_sorted (df : list record) :
  date_sorted df -> date_sorted (map written_row df).
Proof.
  unfold date_sorted. intros Hs.
  induction Hs as [|r l Hs IH Hhd]; simpl; constructor; [exact IH|].
  destruct Hhd as [|x l' Hle]; simpl; constructor.
  now apply written_row_date_le.
Qed.

(** X8: [save_combined_csv] keeps the order by date: a frame sorted by date
    is written as a file sorted by day, missing dates last. *)
Theorem save_keeps_date_order (df : list record) (written : csv_file) :
  date_sorted df ->
  save_combined_csv df = Ok written ->
  date_sorted written /\ length written = length df.
Proof.
  intros Hs Hw. destruct (save_rows df written Hw) as [_ ->].
  split; [now apply written_rows_sorted|apply length_map].
Qed.

Lemma save_keeps_date_order_witness :
  date_sorted (map written_row [Examples.january; Examples.february]) /\
  length (map written_row [Examples.january; Examples.february])
  = length [Examples.january; Examples.february].
Proof.
  apply (save_keeps_date_order [Examples.january; Examples.february]).
  - repeat constructor.
  - vm_compute; reflexivity.
Defined.

(** ** The upload route, again *)








(** On the JSON value of a history file the app wrote, the function on
    JSON values does what [add_to_upload_history] does on the entries *)
Lemma update_entry_files (name now : string) (n : nat)
  (files : list history_entry) :
  update_entry name n now (map json_of_entry files) =
  Ok (if existsb (fun e => String.eqb (h_filename e) name) files
      then Some (map json_of_entry
                   (add_to_upload_history name NA n NA now files))
      else None).
Proof.
  induction files as [|e files IH]; [reflexivity|].
  cbn [map update_entry]. unfold json_of_entry at 1.
  cbn [getitem dict_get find fst snd option_map String.eqb Ascii.eqb
       Bool.eqb bind equals_text existsb add_to_upload_history].
  destruct (String.eqb (h_filename e) name) eqn:E.
  - reflexivity.
  - rewrite IH. cbn [bind orb].
    destruct (existsb _ files); reflexivity.
Qed.

Lemma add_to_upload_history_known (name : string) (bank_type bank_type' : cell)
  (n : nat) (currency currency' : cell) (now : string)
  (files : list history_entry) :
  existsb (fun e => String.eqb (h_filename e) name) files = true ->
  add_to_upload_history name bank_type n currency now files =
  add_to_upload_history name bank_type' n currency' now files.
Proof.
  induction files as [|e files IH]; [discriminate|]. simpl.
  destruct (String.eqb (h_filename e) name); [reflexivity|].
  simpl. intros H. now rewrite (IH H).
Qed.

Lemma add_to_upload_history_new (name : string) (bank_type : cell)
  (n : nat) (currency : cell) (now : string) (files : list history_entry) :
  existsb (fun e => String.eqb (h_filename e) name) files = false ->
  add_to_upload_history name bank_type n currency now files =
  (files ++ [{| h_filename := name; h_bank := bank_type;
               h_transactions := n; h_currency := currency;
               h_uploaded_at := now; h_source := "upload" |}])%list.
Proof.
  induction files as [|e files IH]; [reflexivity|]. simpl.
  destruct (String.eqb (h_filename e) name); [discriminate|].
  simpl. intros H. now rewrite (IH H).
Qed.

Lemma foreign_history_of_files (name : string) (bank_type : cell) (n : nat)
  (currency : cell) (now : string) (files : list history_entry) :
  add_to_foreign_history name bank_type n currency now (json_of_files files)
  = Ok (json_of_files
          (add_to_upload_history name bank_type n currency now files)).
Proof.
  unfold add_to_foreign_history, json_of_files.
  cbn [getitem dict_get find fst snd option_map String.eqb Ascii.eqb
       Bool.eqb bind].
  rewrite update_entry_files. cbn [bind].
  destruct (existsb _ files) eqn:E.
  - rewrite (add_to_upload_history_known name bank_type NA n currency NA now
               files E).
    reflexivity.
  - rewrite (add_to_upload_history_new _ _ _ _ _ _ E), map_app. reflexivity.
Qed.

Lemma upload_success_full {P : Pandas} {R : Readers} (now : string)
  (file : upload) (st st' : state) (added total : nat) (bank_type : cell) :
  api_upload now (Some file) st = (Success added total bank_type, st') ->
  exists normalized first rest,
    read_upload file = inl (Ok normalized) /\
    records normalized = first :: rest /\
    added = length (records normalized) /\
    total = length (merge_ledger (ledger_file st) (records normalized)) /\
    bank_type = bank first /\
    ledger_file st' =
      Some (map written_row
              (merge_ledger (ledger_file st) (records normalized))) /\
    df_cache st' =
      Some (reloaded (merge_ledger (ledger_file st) (records normalized))) /\
    update_upload_history (filename file) (bank first) added
      (original_currency first) now (history_json st)
    = Ok (history_json st').
Proof.
  intros H. destruct (upload_cases _ _ _ _ _ H) as [[_ Hno]|Hyes].
  - now destruct (Hno added total bank_type).
  - destruct Hyes
      as (f & normalized & first & rest & Hf & Hread & Hrec & Hl & Hc & Hu).
    injection Hf as <-. exists normalized, first, rest.
    destruct (update_upload_history _ _ _ _ _ _) as [history|e] eqn:E;
      destruct Hu as [Hresp Hh]; [|discriminate].
    injection Hresp as -> -> ->. subst history.
    repeat split; assumption.
Qed.



(** X10: when the ledger file does not load (it is absent, or a date in it
    does not parse), a successful upload writes the uploaded rows alone, in
    their order and with their duplicates: nothing is removed, and [total]
    equals [added]. *)
Theorem upload_without_ledger {P : Pandas} {R : Readers} (now : string)
  (file : upload) (st st' : state) (added total : nat) (bank_type : cell)
  (e : exn) :
  load_combined_csv (ledger_file st) = Raise e ->
  api_upload now (Some file) st = (Success added total bank_type, st') ->
  exists normalized,
    read_upload file = inl (Ok normalized) /\
    ledger_file st' = Some (map written_row (records normalized)) /\
    total = added.
Proof.
  intros Hload H.
  destruct (upload_success_full now file st st' added total bank_type H)
    as (n & first & rest & Hread & Hrec & Ha & Ht & _ & Hl & _).
  exists n. unfold merge_ledger in *. rewrite Hload in *.
  split; [exact Hread|]. split; [exact Hl|]. congruence.
Qed.

Lemma upload_without_ledger_witness :
  exists st' normalized,
    @api_upload Reference.pandas Examples.readers "2024-03-01T12:00:00"
      (Some Examples.upload_csv)
      {| ledger_file := None; history_json := Files []; df_cache := None |}
    = (Success 1 1 (Str "Monzo"), st') /\
    @read_upload Reference.pandas Examples.readers Examples.upload_csv
    = inl (Ok normalized) /\
    ledger_file st' = Some (map written_row (records normalized)).
Proof.
  eexists.
  assert (E : @api_upload Reference.pandas Examples.readers
                "2024-03-01T12:00:00" (Some Examples.upload_csv)
                {| ledger_file := None; history_json := Files []; df_cache := None |}
              = (Success 1 1 (Str "Monzo"), _)) by (vm_compute; reflexivity).
  pose proof (fun Hload =>
                @upload_without_ledger Reference.pandas Examples.readers
                  _ _ _ _ _ _ _ FileNotFoundError Hload E) as W.
  destruct (W eq_refl) as (n & Hread & Hl & _).
  exists n. split; [exact E|]. split; [exact Hread|exact Hl].
Defined.

(** ** The amounts of the normalized records *)

Lemma korean_bank {P : Pandas} df r :
  cell_of (normalize_korean df) "bank" r = Str "TravelWallet (Korea)".
Proof. korean_cases df; reflexivity. Qed.

Lemma normalized_rows {P : Pandas} (df : DataFrame) (recs : list record)
  (rec : record) :
  normalized_records df = Ok recs -> In rec recs ->
  exists pre r,
    build_normalized df = Ok pre /\ In r (findex pre) /\ rec = record_of pre r.
Proof.
  unfold normalized_records, normalize_uploaded_data.
  destruct (build_normalized df) as [pre|e]; simpl; [|discriminate].
  destruct (dropna_all ["date"; "amount_gbp"] pre) as [out|e] eqn:Hd;
    simpl; [|discriminate].
  intros H. injection H as <-. intros Hin.
  destruct (dropna_records pre out Hd) as (_ & _ & Hr).
  rewrite Hr in Hin. apply filter_In in Hin. destruct Hin as [Hin _].
  apply in_map_iff in Hin. destruct Hin as (r & <- & Hrow).
  now exists pre, r.
Qed.

Lemma Qabs_scaled (q : Q) :
  0 <= Qabs q /\
  Qabs (Qabs q * KRW_TO_GBP_RATE) == Qabs q * KRW_TO_GBP_RATE /\
  Qabs (- Qabs (Qabs q * KRW_TO_GBP_RATE)) == Qabs q * KRW_TO_GBP_RATE.
Proof.
  assert (H0 : 0 <= Qabs q) by apply Qabs_nonneg.
  assert (H1 : 0 <= Qabs q * KRW_TO_GBP_RATE).
  { apply Qmult_le_0_compat; [exact H0|]. unfold KRW_TO_GBP_RATE. discriminate. }
  split; [exact H0|]. split.
  - now apply Qabs_pos.
  - rewrite Qabs_opp. rewrite Qabs_pos by apply Qabs_nonneg. now apply Qabs_pos.
Qed.

(** X11: every record the Korean branch of [normalize_uploaded_data]
    returns is a TravelWallet record in KRW whose original amount is a
    magnitude (not negative) and whose amount, up to its sign, is that
    magnitude times the fixed rate; or both are missing. *)
Theorem korean_amount_converted {P : Pandas} (df : DataFrame)
  (recs : list record) (rec : record) :
  detect_format df = Korean ->
  normalized_records df = Ok recs ->
  In rec recs ->
  converted_at_rate rec /\
  original_currency rec = Str "KRW" /\
  bank rec = Str "TravelWallet (Korea)".
Proof.
  intros HF Hn Hin.
  destruct (normalized_rows df recs rec Hn Hin) as (pre & r & Hb & _ & ->).
  unfold build_normalized in Hb. rewrite HF in Hb. injection Hb as <-.
  destruct (korean_income df r) as (_ & Hamt & Horig & Hcur & _).
  split; [|split; [exact Hcur|apply korean_bank]].
  unfold converted_at_rate.
  change (original_amount (record_of (normalize_korean df) r))
    with (cell_of (normalize_korean df) "original_amount" r).
  change (amount_gbp (record_of (normalize_korean df) r))
    with (cell_of (normalize_korean df) "amount_gbp" r).
  rewrite Horig, Hamt.
  destruct (krw_amount df r) as [| |q| |];
    match goal with
    | |- context [if ?b then _ else _] => destruct b
    end; cbn [cell_abs cell_scale cell_neg]; auto;
    destruct (Qabs_scaled q) as (H0 & H1 & H2); auto.
Qed.

Lemma korean_amount_converted_witness :
  exists recs rec,
    @normalized_records Reference.pandas Examples.travelwallet_payment = Ok recs /\
    In rec recs /\ converted_at_rate rec.
Proof.
  eexists. eexists.
  assert (E : @normalized_records Reference.pandas Examples.travelwallet_payment
              = Ok _) by (vm_compute; reflexivity).
  split; [exact E|]. split; [left; reflexivity|].
  exact (proj1 (@korean_amount_converted Reference.pandas
                  Examples.travelwallet_payment _ _ eq_refl E
                  (or_introl eq_refl))).
Defined.

Lemma monzo_original_amount {P : Pandas} df n r :
  has_col df "Date" = true -> normalize_monzo df = Ok n ->
  cell_of n "original_amount" r = cell_of n "amount_gbp" r /\
  cell_of n "original_currency" r = Str "GBP".
Proof.
  intros HD. unfold normalize_monzo, set_get, df_col. rewrite HD.
  destruct (has_col df "Time"), (has_col df "Type"),
    (has_col df "Name"), (has_col df "Category"), (has_col df "Amount"),
    (has_col df "Money Out"), (has_col df "Money In"); cbn;
    intros H; try discriminate; injection H as <-; split; reflexivity.
Qed.

Lemma generic_original_amount {P : Pandas} df n r :
  normalize_generic df = Ok n ->
  cell_of n "original_amount" r = cell_of n "amount_gbp" r.
Proof.
  generic_cases df; intros H; injection H as <-; reflexivity.
Qed.

(** X12: in the Monzo and in the generic branch of [normalize_uploaded_data]
    the original amount of a record is its amount, sign included: for these
    sources [original_amount] is not a magnitude, a spending row has a
    negative one. *)
Theorem gbp_original_amount_signed {P : Pandas} (df : DataFrame)
  (recs : list record) (rec : record) :
  detect_format df <> Korean ->
  normalized_records df = Ok recs ->
  In rec recs ->
  original_amount rec = amount_gbp rec.
Proof.
  intros HF Hn Hin.
  destruct (normalized_rows df recs rec Hn Hin) as (pre & r & Hb & _ & ->).
  assert (Hok : is_ok (normalize_uploaded_data df) = true).
  { revert Hn. unfold normalized_records.
    destruct (normalize_uploaded_data df); [reflexivity|discriminate]. }
  rewrite normalize_ok in Hok.
  unfold build_normalized in Hb.
  destruct (detect_format df); [|now destruct HF|].
  - apply andb_true_iff in Hok. destruct Hok as [HD _].
    exact (proj1 (monzo_original_amount df pre r HD Hb)).
  - exact (generic_original_amount df pre r Hb).
Qed.

Lemma gbp_original_amount_signed_witness :
  exists recs rec,
    @normalized_records Reference.pandas Examples.monzo_money_out = Ok recs /\
    In rec recs /\ original_amount rec = amount_gbp rec /\
    amount_gbp rec = Num (-25 # 2).
Proof.
  eexists. eexists.
  assert (E : @normalized_records Reference.pandas Examples.monzo_money_out
              = Ok _) by (vm_compute; reflexivity).
  split; [exact E|]. split; [left; reflexivity|].
  split; [|reflexivity].
  apply (@gbp_original_amount_signed Reference.pandas
           Examples.monzo_money_out _ _ ltac:(discriminate) E
           (or_introl eq_refl)).
Defined.

(** ** The loaders of [src/data_loader.py] *)

Lemma map_result_Forall2 {A B} (f : A -> result B) (l : list A) (l' : list B) :
  map_result f l = Ok l' -> Forall2 (fun x y => f x = Ok y) l l'.
Proof.
  revert l'. induction l as [|a l IH]; intros l'; simpl.
  - intros H. injection H as <-. constructor.
  - destruct (f a) as [b|e] eqn:Hfa; simpl; [|discriminate].
    destruct (map_result f l) as [bs|e]; simpl; [|discriminate].
    intros H. injection H as <-. constructor; [exact Hfa|now apply IH].
Qed.

Lemma Forall2_map_left {A B C} (g : A -> B) (R : B -> C -> Prop)
  (l : list A) (l' : list C) :
  Forall2 R (map g l) l' -> Forall2 (fun x y => R (g x) y) l l'.
Proof.
  revert l'. induction l as [|a l IH]; intros l' H; inversion H; subst;
    constructor; auto.
Qed.

Lemma Forall2_combine3 {A B C D E} (R1 : A -> B -> Prop) (R2 : A -> C -> Prop)
  (R3 : A -> D -> Prop) (F : A * B * C * D -> E)
  (l : list A) (bs : list B) (cs : list C) (ds : list D) :
  Forall2 R1 l bs -> Forall2 R2 l cs -> Forall2 R3 l ds ->
  Forall2 (fun a e => exists b c d, R1 a b /\ R2 a c /\ R3 a d /\ e = F (a, b, c, d))
          l (map F (combine (combine (combine l bs) cs) ds)).
Proof.
  intros H1. revert cs ds. induction H1 as [|a b l bs Hab _ IH];
    intros cs ds H2 H3; inversion H2; subst; inversion H3; subst; simpl;
    constructor.
  - now exists b, y, y0.
  - now apply IH.
Qed.

Lemma Forall2_length_eq {A B} (R : A -> B -> Prop) (l : list A) (l' : list B) :
  Forall2 R l l' -> length l' = length l.
Proof. induction 1; simpl; congruence. Qed.

Lemma Forall2_map_eq {A B} (g : A -> B) (l : list A) (l' : list B) :
  Forall2 (fun x y => g x = y) l l' -> map g l = l'.
Proof. induction 1; simpl; congruence. Qed.

(** The rows of [load_monzo_csv], one by one *)
Lemma load_monzo_rows {P : Pandas} {Y : Python} (df : DataFrame) (recs : list record) :
  load_monzo_csv_table df = Ok recs ->
  (has_col df "Date" = true /\ has_col df "Time" = true /\
   has_col df "Type" = true /\ has_col df "Name" = true /\
   has_col df "Category" = true /\ has_col df "Amount" = true /\
   has_col df "Money In" = true) /\
  Forall2
    (fun r rec =>
       exists d a m,
         to_datetime_dmy_strict (col df "Date" r) = Ok d /\
         astype_float (col df "Amount" r) = Ok a /\
         astype_float (fillna (Num 0) (col df "Money In" r)) = Ok m /\
         rec = {| date := d;
                  time := col df "Time" r;
                  bank := Str "Monzo";
                  type := col df "Type" r;
                  merchant := col df "Name" r;
                  category := col df "Category" r;
                  amount_gbp := a;
                  original_currency := Str "GBP";
                  original_amount := a;
                  is_income := gt0 m |})
    (df_rows df) recs.
Proof.
  unfold load_monzo_csv_table, df_col.
  change (monzo_column "date") with "Date".
  change (monzo_column "time") with "Time".
  change (monzo_column "type") with "Type".
  change (monzo_column "merchant") with "Name".
  change (monzo_column "category") with "Category".
  change (monzo_column "amount") with "Amount".
  change (monzo_column "money_in") with "Money In".
  destruct (has_col df "Date"); cbn [bind]; [|discriminate].
  destruct (map_result to_datetime_dmy_strict _) as [dates|e] eqn:Hd;
    cbn [bind]; [|discriminate].
  destruct (has_col df "Time"); cbn [bind]; [|discriminate].
  destruct (has_col df "Type"); cbn [bind]; [|discriminate].
  destruct (has_col df "Name"); cbn [bind]; [|discriminate].
  destruct (has_col df "Category"); cbn [bind]; [|discriminate].
  destruct (has_col df "Amount"); cbn [bind]; [|discriminate].
  destruct (map_result astype_float (map (col df "Amount") _)) as [amounts|e]
    eqn:Ha; cbn [bind]; [|discriminate].
  destruct (has_col df "Money In"); cbn [bind]; [|discriminate].
  destruct (map_result astype_float
              (map (fun r => fillna (Num 0) (col df "Money In" r)) _))
    as [money_in|e] eqn:Hm; cbn [bind]; [|discriminate].
  intros H. injection H as <-.
  split; [repeat split; reflexivity|].
  apply map_result_Forall2, Forall2_map_left in Hd, Ha, Hm.
  pose proof (Forall2_combine3 _ _ _
    (fun '(r, d, a, m) =>
       {| date := d; time := col df "Time" r; bank := Str "Monzo";
          type := col df "Type" r; merchant := col df "Name" r;
          category := col df "Category" r; amount_gbp := a;
          original_currency := Str "GBP"; original_amount := a;
          is_income := gt0 m |}) _ _ _ _ Hd Ha Hm) as H.
  exact H.
Qed.

(** The records of [load_monzo_csv] for a table that was read *)
Lemma load_monzo_table_rows {P : Pandas} {Y : Python} (df : DataFrame) (recs : list record) :
  load_monzo_csv_table df = Ok recs ->
  length recs = length (df_rows df) /\
  forallb (fun name => has_col df name)
    ["Date"; "Time"; "Type"; "Name"; "Category"; "Amount"; "Money In"] = true /\
  Forall (fun rec =>
            bank rec = Str "Monzo" /\ original_currency rec = Str "GBP" /\
            original_amount rec = amount_gbp rec /\ datetimelike rec) recs.
Proof.
  intros H. destruct (load_monzo_rows df recs H) as [Hcols Hrows].
  split; [exact (Forall2_length_eq _ _ _ Hrows)|]. split.
  - simpl. destruct Hcols as (-> & -> & -> & -> & -> & -> & ->). reflexivity.
  - clear H Hcols. induction Hrows as [|r rec rows recs Hr _ IH];
      constructor; [|exact IH].
    destruct Hr as (d & a & m & Hd & _ & _ & ->). simpl.
    repeat split. unfold datetimelike. simpl.
    unfold to_datetime_dmy_strict in Hd.
    destruct (col df "Date" r) as [|s| | |]; try discriminate.
    + now injection Hd as <-.
    + destruct (strptime_dmy s); [now injection Hd as <-|discriminate].
    + now injection Hd as <-.
Qed.


(** The Monzo frame of the upload route for a table with all the columns *)
Lemma monzo_full_frame {P : Pandas} {Y : Python} (df : DataFrame) :
  has_col df "Date" = true -> has_col df "Time" = true ->
  has_col df "Type" = true -> has_col df "Name" = true ->
  has_col df "Category" = true -> has_col df "Amount" = true ->
  has_col df "Money In" = true ->
  exists n,
    normalize_monzo df = Ok n /\ findex n = df_rows df /\
    forall r,
      record_of n r =
      {| date := to_datetime_dmy (col df "Date" r);
         time := col df "Time" r;
         bank := Str "Monzo";
         type := col df "Type" r;
         merchant := col df "Name" r;
         category := col df "Category" r;
         amount_gbp := to_numeric (col df "Amount" r);
         original_currency := Str "GBP";
         original_amount := to_numeric (col df "Amount" r);
         is_income := gt0 (fillna (Num 0) (to_numeric (col df "Money In" r))) |}.
Proof.
  intros H1 H2 H3 H4 H5 H6 H7.
  unfold normalize_monzo, set_get, df_col.
  rewrite H1, H2, H3, H4, H5, H6, H7. cbn.
  eexists. split; [reflexivity|]. split; reflexivity.
Qed.

(** X14: the two Monzo normalizers agree.  When [load_monzo_csv] returns for
    a table whose "Amount" and "Money In" cells are numbers or empty,
    [normalize_uploaded_data] returns the same records for it, less those
    whose date and amount are both missing. *)
Theorem monzo_loaders_agree {P : Pandas} {Y : Python} (df : DataFrame) (recs : list record) :
  load_monzo_csv_table df = Ok recs ->
  (forall r, In r (df_rows df) ->
     numeric_cell (col df "Amount" r) /\ numeric_cell (col df "Money In" r)) ->
  normalized_records df =
    Ok (filter (fun rec => negb (both_missing rec)) recs).
Proof.
  intros H Hnum.
  destruct (load_monzo_rows df recs H)
    as [(H1 & H2 & H3 & H4 & H5 & H6 & H7) Hrows].
  destruct (monzo_full_frame df H1 H2 H3 H4 H5 H6 H7) as (n & Hn & Hidx & Hrec).
  assert (Hb : build_normalized df = Ok n).
  { unfold build_normalized, detect_format. rewrite H1, orb_true_r. exact Hn. }
  unfold normalized_records, normalize_uploaded_data. rewrite Hb. cbn [bind].
  destruct (dropna_all ["date"; "amount_gbp"] n) as [out|e] eqn:Hd.
  2:{ exfalso. pose proof (monzo_with_date df H1) as Hw. rewrite Hn in Hw.
      destruct Hw as (_ & Hok & _). now rewrite Hd in Hok. }
  destruct (dropna_records n out Hd) as (_ & _ & Hout).
  cbn [bind]. rewrite Hout. f_equal. f_equal.
  unfold records. rewrite Hidx. apply Forall2_map_eq.
  clear H Hb Hd Hout Hn Hidx.
  induction Hrows as [|r rec rows recs Hr _ IH]; constructor.
  - destruct Hr as (d & a & m & Hdate & Hamt & Hin & ->).
    rewrite Hrec.
    destruct (Hnum r (or_introl eq_refl)) as [Ha Hm].
    assert (Ed : to_datetime_dmy (col df "Date" r) = d).
    { revert Hdate. unfold to_datetime_dmy_strict, to_datetime_dmy.
      destruct (col df "Date" r) as [|s| | |]; try discriminate;
        try (intros E; now injection E).
      destruct (strptime_dmy s); [intros E; now injection E|discriminate]. }
    assert (Ea : to_numeric (col df "Amount" r) = a).
    { revert Hamt Ha. unfold numeric_cell.
      destruct (col df "Amount" r); simpl; try contradiction;
        intros E _; now injection E. }
    assert (Em : fillna (Num 0) (to_numeric (col df "Money In" r)) = m).
    { revert Hin Hm. unfold numeric_cell.
      destruct (col df "Money In" r); simpl; try contradiction;
        intros E _; now injection E. }
    now rewrite Ed, Ea, Em.
  - apply IH. intros x Hx. apply Hnum. now right.
Qed.


Lemma monzo_loaders_agree_witness :
  exists recs,
    @load_monzo_csv_table Reference.pandas MoreExamples.python
      MoreExamples.monzo_export = Ok recs /\
    @normalized_records Reference.pandas MoreExamples.monzo_export =
      Ok (filter (fun rec => negb (both_missing rec)) recs).
Proof.
  eexists.
  assert (E : @load_monzo_csv_table Reference.pandas MoreExamples.python
                MoreExamples.monzo_export = Ok _) by (vm_compute; reflexivity).
  split; [exact E|].
  apply (@monzo_loaders_agree Reference.pandas MoreExamples.python
           MoreExamples.monzo_export _ E).
  intros r [<-|[<-|[]]]; split; exact I.
Defined.

Lemma map_result_length {A B} (f : A -> result B) (l : list A) (l' : list B) :
  map_result f l = Ok l' -> length l' = length l.
Proof.
  intros H. exact (Forall2_length_eq _ _ _ (map_result_Forall2 f l l' H)).
Qed.

Lemma to_datetime_strict_datetimelike {P : Pandas} (ctx : list cell)
  (c d : cell) :
  to_datetime_strict ctx c = Ok d ->
  match d with Date _ | NA => True | _ => False end.
Proof.
  unfold to_datetime_strict. destruct c as [|s|q|b|t]; try discriminate.
  - intros H. now injection H as <-.
  - destruct (parse_date ctx s); [|discriminate]. intros H. now injection H as <-.
  - destruct (date_of_number q); [|discriminate]. intros H. now injection H as <-.
  - intros H. now injection H as <-.
Qed.

(** The records of [load_korean_excel] for a sheet that was read *)
Lemma load_korean_table_rows {P : Pandas} (df : DataFrame)
  (recs : list record) :
  load_korean_excel_table df = Ok recs ->
  length recs =
    (if df_empty df then 0
     else match numeric_cols df with [] => 0 | _ => length (df_rows df) end)%nat /\
  Forall (fun rec =>
            bank rec = Str "TravelWallet (Korea)" /\
            original_currency rec = Str "KRW" /\
            time rec = Str "" /\
            category rec = merchant rec /\
            amount_gbp rec = cell_scale (original_amount rec) KRW_TO_GBP_RATE /\
            datetimelike rec) recs.
Proof.
  unfold load_korean_excel_table.
  destruct (df_empty df).
  { intros H. injection H as <-. split; [reflexivity|constructor]. }
  assert (Hrev : forall l : list string,
            match rev l with [] => l = [] | _ => l <> [] end).
  { intros l. destruct (rev l) eqn:E.
    - apply (f_equal (@rev string)) in E. now rewrite rev_involutive in E.
    - intros ->. discriminate. }
  specialize (Hrev (numeric_cols df)).
  destruct (rev (numeric_cols df)) as [|amount_col ?].
  { rewrite Hrev. intros H. injection H as <-. split; [reflexivity|constructor]. }
  destruct (numeric_cols df) as [|c0 cs]; [now destruct Hrev|].
  match goal with
  | |- (dates <- ?d;; _) = _ -> _ =>
      assert (Hdates : forall dates, d = Ok dates ->
                length dates = length (df_rows df) /\
                Forall (fun x => match x with Date _ | NA => True | _ => False end)
                       dates);
      [|destruct d as [dates|e]]
  end.
  { intros dates.
    destruct (find _ (df_columns df)) as [c|].
    - intros H. split.
      + rewrite (map_result_length _ _ _ H). apply length_map.
      + apply Forall_forall. intros x Hx.
        destruct (map_result_in _ _ _ H x Hx) as (y & _ & Hy).
        exact (to_datetime_strict_datetimelike _ _ _ Hy).
    - intros H. injection H as <-. split; [apply length_map|].
      apply Forall_forall. intros x Hx. apply in_map_iff in Hx.
      now destruct Hx as (? & <- & _). }
  2:{ simpl. discriminate. }
  destruct (Hdates dates eq_refl) as [Hlen Hdt]. cbn [bind].
  match goal with
  | |- (f <- ?d;; _) = _ -> _ => destruct d as [f|e]
  end; cbn [bind]; [|discriminate].
  intros H. injection H as <-.
  split; [now rewrite length_map, length_combine, Hlen, Nat.min_id|].
  apply Forall_forall. intros rec Hin. apply in_map_iff in Hin.
  destruct Hin as ([r d] & <- & Hrd). simpl.
  repeat split.
  apply in_combine_r in Hrd. rewrite Forall_forall in Hdt.
  exact (Hdt d Hrd).
Qed.



(** X16: [main] of [main_v1.py].  When both loads return and at least one
    of them has rows, the file written holds all the rows of both frames
    and is sorted by day, missing dates last; when both frames are empty
    nothing is written: [save_combined_csv] raises a KeyError on the date
    column of the empty merge. *)
Theorem main_v1_writes_sorted {P : Pandas} {Y : Python}
  (monzo_file : result DataFrame) (korean_file : option (result DataFrame))
  (monzo_df korean_df : list record) :
  load_monzo_csv monzo_file = Ok monzo_df ->
  load_korean_excel korean_file = Ok korean_df ->
  match monzo_df ++ korean_df with
  | [] => main_v1 monzo_file korean_file = Raise (KeyError "date")
  | _ =>
      exists written,
        main_v1 monzo_file korean_file = Ok written /\
        date_sorted written /\
        length written = (length monzo_df + length korean_df)%nat /\
        Permutation written (map written_row (monzo_df ++ korean_df))
  end%list.
Proof.
  intros Hm Hk. unfold main_v1. rewrite Hm, Hk. cbn [bind].
  assert (Hdm : Forall datetimelike monzo_df).
  { revert Hm. unfold load_monzo_csv.
    destruct monzo_file as [df|e]; cbn [bind]; [|discriminate].
    intros H. destruct (load_monzo_table_rows df monzo_df H) as (_ & _ & HF).
    eapply Forall_impl; [|exact HF]. intros a Ha. apply Ha. }
  assert (Hdk : Forall datetimelike korean_df).
  { revert Hk. unfold load_korean_excel.
    destruct korean_file as [[df|e]|];
      try (intros H; injection H as <-; constructor).
    intros H. destruct (load_korean_table_rows df korean_df H) as (_ & HF).
    eapply Forall_impl; [|exact HF]. intros a Ha. apply Ha. }
  rewrite normalize_and_merge_sorts.
  pose proof (sort_values_perm (monzo_df ++ korean_df)) as Hperm.
  pose proof (sort_values_sorted (monzo_df ++ korean_df)) as Hsorted.
  assert (Hall : Forall datetimelike (sort_values (monzo_df ++ korean_df))).
  { eapply Permutation_Forall; [symmetry; exact Hperm|].
    apply Forall_app. now split. }
  destruct (monzo_df ++ korean_df)%list as [|x l] eqn:Hl.
  - reflexivity.
  - destruct (sort_values (x :: l)) as [|y s] eqn:Hs.
    + apply Permutation_length in Hperm. discriminate.
    + exists (map written_row (y :: s)).
      pose proof (save_datetimelike (y :: s) Hall) as Hsave.
      split; [exact Hsave|].
      split; [now apply written_rows_sorted|]. split.
      * rewrite length_map, (Permutation_length Hperm), <- Hl.
        apply length_app.
      * now apply Permutation_map.
Qed.

Lemma main_v1_writes_sorted_witness :
  exists written,
    @main_v1 Reference.pandas MoreExamples.python
      (Ok MoreExamples.monzo_export) (Some (Ok Examples.travelwallet_payment))
    = Ok written /\
    date_sorted written /\ length written = 3%nat.
Proof.
  pose proof (@main_v1_writes_sorted Reference.pandas MoreExamples.python
                (Ok MoreExamples.monzo_export)
                (Some (Ok Examples.travelwallet_payment))) as W.
  assert (Em : @load_monzo_csv Reference.pandas MoreExamples.python
                 (Ok MoreExamples.monzo_export) = Ok _)
    by (vm_compute; reflexivity).
  assert (Ek : @load_korean_excel Reference.pandas
                 (Some (Ok Examples.travelwallet_payment)) = Ok _)
    by (vm_compute; reflexivity).
  specialize (W _ _ Em Ek). simpl in W.
  destruct W as (written & Hw & Hs & Hl & _).
  exists written. split; [exact Hw|]. split; [exact Hs|exact Hl].
Defined.

(** ** The overall summary *)

Lemma income_mask_length (df : list record) (mask : list bool) :
  income_mask df = Ok mask -> length mask = length df.
Proof.
  revert mask. induction df as [|r df IH]; intros mask; simpl.
  - intros H. now injection H as <-.
  - destruct (is_income r); try discriminate.
    destruct (income_mask df) as [m|e]; simpl; [|discriminate].
    intros H. injection H as <-. simpl. now rewrite (IH m eq_refl).
Qed.

Lemma select_partition (mask : list bool) (df : list record) :
  length mask = length df ->
  (length (select (map negb mask) df) + length (select mask df))%nat = length df.
Proof.
  revert df. induction mask as [|b mask IH]; intros [|r df]; simpl;
    try discriminate; [reflexivity|].
  intros H. injection H as H. specialize (IH df H).
  destruct b; simpl; lia.
Qed.

Lemma max_one_positive (n : nat) : 0 < inject_Z (Z.of_nat (Nat.max 1 n)).
Proof.
  unfold Qlt, inject_Z. cbn [Qnum Qden]. lia.
Qed.

(** The parts of a summary that was returned *)
Lemma summary_parts (df : list record) (s : overall) :
  get_income_vs_spending df = Ok s ->
  exists mask spending income,
    income_mask df = Ok mask /\
    amount_sum (map amount_gbp (select (map negb mask) df)) = Ok spending /\
    amount_sum (map amount_gbp (select mask df)) = Ok income /\
    s = {| total_spending := Qabs spending;
           total_income := income;
           net_cash_flow := income + spending;
           spending_count := length (select (map negb mask) df);
           income_count := length (select mask df);
           average_spending :=
             Qabs spending
             / inject_Z (Z.of_nat
                           (Nat.max 1 (length (select (map negb mask) df))));
           average_income :=
             income
             / inject_Z (Z.of_nat (Nat.max 1 (length (select mask df)))) |}.
Proof.
  unfold get_income_vs_spending.
  destruct df as [|r df]; [discriminate|]. cbv beta iota.
  destruct (income_mask (r :: df)) as [mask|e] eqn:Hm; cbn [bind];
    [|discriminate].
  destruct (amount_sum (map amount_gbp (select (map negb mask) (r :: df))))
    as [spending|e] eqn:Hs; cbn [bind]; [|discriminate].
  destruct (amount_sum (map amount_gbp (select mask (r :: df))))
    as [income|e] eqn:Hi; cbn [bind]; [|discriminate].
  intros H. injection H as <-.
  exists mask, spending, income. now repeat split.
Qed.

(** The sum over no rows is 0 *)
Lemma amount_sum_none (l : list record) (s : Q) :
  length l = 0%nat -> amount_sum (map amount_gbp l) = Ok s -> s = 0.
Proof.
  destruct l; [|discriminate]. intros _ H. now injection H.
Qed.

(** X17: the overall summary counts every row once, as spending or as
    income.  The total and the average of spending are never negative.
    Each average divides by the larger of 1 and the count, so there is no
    division by zero: with no spending rows the total and the average of
    spending are 0, and likewise for income.  (Of the exact value of an
    average nothing is stated: the program computes it in floating
    point.) *)
Theorem summary_counts_and_averages (df : list record) (s : overall) :
  get_income_vs_spending df = Ok s ->
  (spending_count s + income_count s)%nat = length df /\
  0 <= total_spending s /\
  0 <= average_spending s /\
  (spending_count s = 0%nat ->
   total_spending s == 0 /\ average_spending s == 0) /\
  (income_count s = 0%nat ->
   total_income s == 0 /\ average_income s == 0).
Proof.
  intros H.
  destruct (summary_parts df s H)
    as (mask & spending & income & Hm & Hs & Hi & ->).
  cbn [spending_count income_count total_spending total_income
       average_spending average_income].
  split; [apply select_partition; now apply income_mask_length|].
  split; [apply Qabs_nonneg|].
  split.
  { apply Qle_shift_div_l; [apply max_one_positive|].
    rewrite Qmult_0_l. apply Qabs_nonneg. }
  split.
  - intros Hz. rewrite (amount_sum_none _ _ Hz Hs), Hz.
    split; reflexivity.
  - intros Hz. rewrite (amount_sum_none _ _ Hz Hi), Hz.
    split; reflexivity.
Qed.

Lemma summary_counts_and_averages_witness :
  exists s,
    get_income_vs_spending
      [Examples.january; MoreExamples.salary; Examples.february] = Ok s /\
    (spending_count s + income_count s)%nat = 3%nat /\
    0 <= average_spending s.
Proof.
  eexists.
  assert (E : get_income_vs_spending
                [Examples.january; MoreExamples.salary; Examples.february]
              = Ok _) by (vm_compute; reflexivity).
  split; [exact E|].
  destruct (summary_counts_and_averages _ _ E) as (Hc & _ & Ha & _).
  split; [exact Hc|exact Ha].
Defined.

Lemma amount_sum_not_positive (df : list record) (mask : list bool) (s : Q) :
  income_mask df = Ok mask ->
  Forall spending_not_positive df ->
  amount_sum (map amount_gbp (select (map negb mask) df)) = Ok s ->
  s <= 0.
Proof.
  revert mask s. induction df as [|r df IH]; intros mask s; simpl.
  - intros H. injection H as <-. simpl. intros _ H. injection H as <-.
    apply Qle_refl.
  - destruct (is_income r) as [| | |b|] eqn:Hr; try discriminate.
    destruct (income_mask df) as [m|e]; simpl; [|discriminate].
    intros H. injection H as <-. intros Hall. inversion Hall as [|? ? Hhd Htl].
    subst. simpl. destruct b; simpl.
    + now apply IH.
    + destruct (amount_sum (map amount_gbp (select (map negb m) df)))
        as [s'|e] eqn:Hs'; simpl; [|discriminate].
      specialize (IH m s' eq_refl Htl Hs').
      unfold spending_not_positive in Hhd. rewrite Hr in Hhd.
      destruct (amount_gbp r) as [| |q| |]; try contradiction; try discriminate.
      * intros H. injection H as <-. exact IH.
      * intros H. injection H as <-.
        rewrite <- (Qplus_0_r 0). now apply Qplus_le_compat.
Qed.

(** X18: the net cash flow is the sum of all amounts taken into account.  It
    is the total of income less the total of spending when the spending
    rows have amounts that are negative or zero (or missing), which is what
    the summary relies on. *)
Theorem summary_net_cash_flow (df : list record) (s : overall) :
  Forall spending_not_positive df ->
  get_income_vs_spending df = Ok s ->
  net_cash_flow s == total_income s - total_spending s.
Proof.
  intros Hall H.
  destruct (summary_parts df s H)
    as (mask & spending & income & Hm & Hs & _ & ->).
  simpl.
  pose proof (amount_sum_not_positive df mask spending Hm Hall Hs) as Hle.
  rewrite (Qabs_neg _ Hle). ring.
Qed.

Lemma summary_net_cash_flow_witness :
  exists s,
    get_income_vs_spending
      [Examples.january; MoreExamples.salary; Examples.february] = Ok s /\
    net_cash_flow s == total_income s - total_spending s /\
    net_cash_flow s == 1477.
Proof.
  eexists.
  assert (E : get_income_vs_spending
                [Examples.january; MoreExamples.salary; Examples.february]
              = Ok _) by (vm_compute; reflexivity).
  split; [exact E|]. split; [|reflexivity].
  apply (summary_net_cash_flow
           [Examples.january; MoreExamples.salary; Examples.february] _);
    [|exact E].
  repeat constructor; vm_compute; discriminate.
Defined.

(** ** The cached frame *)

Lemma load_present_file {P : Pandas} (rows : csv_file) :
  load_combined_csv (Some rows) <> Raise FileNotFoundError.
Proof.
  unfold load_combined_csv.
  generalize (map date (read_csv_rows rows)) as ctx.
  induction (read_csv_rows rows) as [|r l IH]; intros ctx; simpl;
    [discriminate|].
  destruct (to_datetime_strict ctx (date r)) as [d|e] eqn:Hd; simpl.
  - specialize (IH ctx). destruct (map_result _ l); simpl; [discriminate|].
    intros H. apply IH. exact H.
  - intros H. injection H as ->. revert Hd. unfold to_datetime_strict.
    destruct (date r) as [|s|q|b|t]; try discriminate.
    + destruct (parse_date ctx s); discriminate.
    + destruct (date_of_number q); discriminate.
Qed.

(** X19: once [get_data] has returned for a ledger file that exists, it
    keeps returning the same frame, and leaves the cache as it is, for as
    long as the modification time of the file is the same: the file is not
    read again, whatever it holds by then. *)
Theorem get_data_serves_cache {P : Pandas} (rows : csv_file) (m : Z)
  (c c' : cache) (df : list record) :
  get_data (Some (rows, m)) c = Ok (df, c') ->
  forall rows', get_data (Some (rows', m)) c' = Ok (df, c').
Proof.
  assert (Hhit : forall loaded rows',
            get_data (Some (rows', m))
              {| _df_cache := Some loaded; _df_cache_time := Some m |}
            = Ok (loaded, {| _df_cache := Some loaded;
                             _df_cache_time := Some m |})).
  { intros loaded rows'. unfold get_data. cbn -[load_combined_csv].
    now rewrite Z.eqb_refl. }
  assert (Hmiss : forall t,
            match load_combined_csv (Some rows) with
            | Ok loaded =>
                Ok (loaded, {| _df_cache := Some loaded;
                               _df_cache_time := Some m |})
            | Raise FileNotFoundError =>
                Ok ([], {| _df_cache := Some []; _df_cache_time := t |})
            | Raise e => Raise e
            end = Ok (df, c') ->
            forall rows', get_data (Some (rows', m)) c' = Ok (df, c')).
  { intros t. pose proof (load_present_file rows) as Hp.
    destruct (load_combined_csv (Some rows)) as [loaded|e].
    - intros H. injection H as Hdf Hc. subst df c'. apply Hhit.
    - destruct e; try discriminate. now destruct Hp. }
  unfold get_data. cbn -[load_combined_csv].
  destruct c as [[cached|] [t|]]; cbn -[load_combined_csv];
    try apply Hmiss.
  destruct (Z.eqb t m) eqn:Ht; cbn -[load_combined_csv]; [|apply Hmiss].
  apply Z.eqb_eq in Ht. subst t.
  intros H. injection H as Hdf Hc. subst df c'. apply Hhit.
Qed.

Lemma get_data_serves_cache_witness :
  @get_data Reference.pandas (Some ([], 1709294400%Z))
    {| _df_cache := Some [Examples.february];
       _df_cache_time := Some 1709294400%Z |}
  = Ok ([Examples.february],
        {| _df_cache := Some [Examples.february];
           _df_cache_time := Some 1709294400%Z |}).
Proof.
  apply (@get_data_serves_cache Reference.pandas [Examples.february]
           1709294400%Z {| _df_cache := None; _df_cache_time := None |}).
  vm_compute; reflexivity.
Defined.

(** X20: without a ledger file [get_data] returns the empty frame and does
    not raise, and it leaves the cached modification time as it was.  So a
    file that comes back with the modification time it had when it was last
    loaded is not read: the empty frame is served for it. *)
Theorem get_data_absent_file {P : Pandas} (c : cache) :
  _df_cache_time c <> Some 0%Z ->
  let emptied := {| _df_cache := Some []; _df_cache_time := _df_cache_time c |} in
  get_data None c = Ok ([], emptied) /\
  forall rows m,
    _df_cache_time c = Some m ->
    get_data (Some (rows, m)) emptied = Ok ([], emptied).
Proof.
  intros Ht. simpl. split.
  - unfold get_data. simpl.
    destruct c as [[cached|] [t|]]; simpl in *; try reflexivity.
    destruct (Z.eqb t 0) eqn:E; [|reflexivity].
    apply Z.eqb_eq in E. subst. now destruct Ht.
  - intros rows m Hm. unfold get_data. simpl. rewrite Hm.
    now rewrite Z.eqb_refl.
Qed.

Lemma get_data_absent_file_witness :
  @get_data Reference.pandas None
    {| _df_cache := Some [Examples.february];
       _df_cache_time := Some 1709294400%Z |}
  = Ok ([], {| _df_cache := Some [];
               _df_cache_time := Some 1709294400%Z |}).
Proof.
  apply (@get_data_absent_file Reference.pandas
           {| _df_cache := Some [Examples.february];
              _df_cache_time := Some 1709294400%Z |}).
  discriminate.
Defined.

(** ** The income rule of the two Korean normalizers *)

Lemma prefix_app (p s : string) : prefix p (p ++ s) = true.
Proof.
  induction p as [|a p IH]; simpl; [now destruct s|].
  destruct (ascii_dec a a) as [_|F]; [exact IH|now destruct F].
Qed.

Lemma contains_unfold (p s : string) :
  contains p s =
  prefix p s || match s with
                | EmptyString => false
                | String _ s' => contains p s'
                end.
Proof. now destruct s. Qed.

Lemma contains_prefix (p s : string) : contains p (p ++ s) = true.
Proof. now rewrite contains_unfold, prefix_app. Qed.

Lemma contains_later (p a s : string) :
  contains p s = true -> contains p (a ++ s) = true.
Proof.
  intros H. induction a as [|c a IH]; simpl; [exact H|].
  rewrite IH. apply orb_true_r.
Qed.

Lemma drop_leading_suffix (chars : list (list ascii)) (fuel : nat)
  (l : list ascii) :
  exists a, l = (a ++ drop_leading chars fuel l)%list.
Proof.
  revert l. induction fuel as [|fuel IH]; intros l; simpl; [now exists []|].
  destruct (find _ chars) as [w|]; [|now exists []].
  destruct (IH (skipn (length w) l)) as (a & Ha).
  exists (firstn (length w) l ++ a)%list.
  rewrite <- app_assoc, <- Ha. symmetry. apply firstn_skipn.
Qed.

Lemma string_of_list_ascii_app (a b : list ascii) :
  string_of_list_ascii (a ++ b)
  = string_of_list_ascii a ++ string_of_list_ascii b.
Proof. induction a as [|c a IH]; simpl; [reflexivity|now rewrite IH]. Qed.

(** What [strip] returns is a part of the text *)
Lemma strip_infix (s : string) : exists a b, s = a ++ strip s ++ b.
Proof.
  unfold strip, lstrip_bytes, rstrip_bytes.
  set (l := list_ascii_of_string s).
  destruct (drop_leading_suffix WHITESPACE (length l) l) as (a & Ha).
  set (m := drop_leading WHITESPACE (length l) l) in *.
  destruct (drop_leading_suffix (map (@rev ascii) WHITESPACE) (length m)
              (rev m)) as (b & Hb).
  set (t := drop_leading (map (@rev ascii) WHITESPACE) (length m) (rev m)) in *.
  exists (string_of_list_ascii a), (string_of_list_ascii (rev b)).
  rewrite <- !string_of_list_ascii_app.
  assert (Hm : m = (rev t ++ rev b)%list).
  { rewrite <- rev_app_distr, <- Hb. symmetry. apply rev_involutive. }
  rewrite <- Hm, <- Ha. unfold l.
  symmetry. apply string_of_list_ascii_of_string.
Qed.

Lemma strip_contains (p s : string) : strip s = p -> contains p s = true.
Proof.
  intros <-. destruct (strip_infix s) as (a & b & H).
  rewrite H at 2. apply contains_later, contains_prefix.
Qed.

(** X21: the income rules of the two Korean normalizers are nested.  Every
    type cell that [load_korean_excel] takes as income (the text "charge",
    in any letter case, with white space of any kind around it) is taken
    as income by the Korean branch of [normalize_uploaded_data] too; the
    other way round fails, as for "충전". *)
Theorem income_rules_nested {P : Pandas} :
  (forall c, equals_income_type c = Bool true ->
     is_charge (astype_str c) = true) /\
  is_charge (astype_str (Str "충전")) = true /\
  equals_income_type (Str "충전") = Bool false.
Proof.
  split; [|split; reflexivity].
  intros c. unfold equals_income_type, is_charge.
  destruct c as [|s| | |]; try discriminate.
  intros H. injection H as H. apply String.eqb_eq in H.
  cbn [astype_str]. unfold KOREAN_INCOME_TYPE in H.
  rewrite (strip_contains _ _ H). apply orb_true_r.
Qed.
